(** * Attendance dashboard: shift-policy rule engine, block extraction and
      report aggregation of [bbb.py] and [vv.py].

    The two scripts share their first three sections verbatim
    ([to_time_safe], [calculate_late_status], [calculate_early_out_status],
    [get_day_classification], [restructure_attendance_data]); [bbb.py] adds
    [generate_employee_report] and [vv.py] adds [generate_consolidated_report].

    Conventions of the embedding.
    - A Python [str] is a [string]: one character per code point below 256
      (the CSV path decodes the upload as latin1; workbook cells are taken
      to stay in that range).  There [str.isspace] and the regex class \d
      are the finite sets written out in [isspace] and [isdigit].
    - A [datetime.time] is a record of its four integer fields; a
      [datetime.timedelta] is its exact length in microseconds.
    - [timedelta.total_seconds() / 60] and the division by
      [LATE_UNIT_MINUTES] are binary64 operations in the source.  Within one
      day the operand is a multiple of 1e-6 s below 86400 s, the three
      roundings move the quotient by less than 1e-13, and a quotient that is
      not a whole number is at least 1e-9 away from one; exact multiples of
      900 s divide exactly.  Sign tests and [math.ceil] therefore agree with
      the exact rational computation, which is what is written here ([Q]).
    - A raised exception is a value of [outcome]; [st.error] appends to a
      list of diagnostics returned next to the result. *)

From Stdlib Require Import ZArith QArith Qround List String Ascii Bool Lia.
From Stdlib Require Import DecimalString.
Import ListNotations.

Open Scope string_scope.
Open Scope Z_scope.

(** ** datetime *)

Module Datetime.

Record time := mk_time
  { hour : Z; minute : Z; second : Z; microsecond : Z }.

Record date := mk_date
  { year : Z; month : Z; day : Z }.

Record datetime := mk_datetime
  { dt_date : date; dt_time : time }.

(** Values the constructors of the [datetime] module accept. *)
Definition valid_time (t : time) : Prop :=
  0 <= hour t < 24 /\ 0 <= minute t < 60 /\
  0 <= second t < 60 /\ 0 <= microsecond t < 1000000.

Definition valid_timeb (t : time) : bool :=
  (0 <=? hour t) && (hour t <? 24) && (0 <=? minute t) && (minute t <? 60) &&
  (0 <=? second t) && (second t <? 60) &&
  (0 <=? microsecond t) && (microsecond t <? 1000000).

(** [datetime.combine(date, time)] *)
Definition combine (d : date) (t : time) : datetime := mk_datetime d t.

(** Tuple comparison, as [_cmp] on the field tuples. *)
Fixpoint tuple_cmp (a b : list Z) : comparison :=
  match a, b with
  | [], [] => Eq
  | [], _ :: _ => Lt
  | _ :: _, [] => Gt
  | x :: a', y :: b' =>
      match x ?= y with
      | Eq => tuple_cmp a' b'
      | c => c
      end
  end.

Definition datetime_fields (x : datetime) : list Z :=
  [ year (dt_date x); month (dt_date x); day (dt_date x);
    hour (dt_time x); minute (dt_time x); second (dt_time x);
    microsecond (dt_time x) ].

Definition datetime_cmp (a b : datetime) : comparison :=
  tuple_cmp (datetime_fields a) (datetime_fields b).

(** [a <= b] and [a >= b] on datetimes *)
Definition datetime_le (a b : datetime) : bool :=
  match datetime_cmp a b with Gt => false | _ => true end.

Definition datetime_ge (a b : datetime) : bool :=
  match datetime_cmp a b with Lt => false | _ => true end.

(** Proleptic Gregorian ordinal of a date ([date.toordinal]). *)
Definition is_leap (y : Z) : bool :=
  (y mod 4 =? 0) && (negb (y mod 100 =? 0) || (y mod 400 =? 0)).

Definition days_before_year (y : Z) : Z :=
  let y' := y - 1 in y' * 365 + y' / 4 - y' / 100 + y' / 400.

Definition days_in_month (y m : Z) : Z :=
  if m =? 2 then (if is_leap y then 29 else 28)
  else if (m =? 4) || (m =? 6) || (m =? 9) || (m =? 11) then 30 else 31.

Fixpoint days_before_month_aux (y : Z) (k : nat) : Z :=
  match k with
  | O => 0
  | S k' => days_before_month_aux y k' + days_in_month y (Z.of_nat k)
  end.

Definition days_before_month (y m : Z) : Z :=
  days_before_month_aux y (Z.to_nat (m - 1)).

Definition toordinal (d : date) : Z :=
  days_before_year (year d) + days_before_month (year d) (month d) + day d.

(** Microseconds since midnight. *)
Definition time_us (t : time) : Z :=
  ((hour t * 60 + minute t) * 60 + second t) * 1000000 + microsecond t.

(** [a - b] on datetimes: a timedelta, kept as its length in microseconds. *)
Definition timedelta := Z.

Definition datetime_sub (a b : datetime) : timedelta :=
  (toordinal (dt_date a) - toordinal (dt_date b)) * 86400000000
  + (time_us (dt_time a) - time_us (dt_time b)).

(** [timedelta.total_seconds()] *)
Definition total_seconds (td : timedelta) : Q := td # 1000000.

End Datetime.
Export Datetime.

(** [math.ceil] *)
Definition math_ceil (x : Q) : Z := Qceiling x.

(** [f'{n}'] for a Python [int]. *)
Definition format_int (n : Z) : string := NilZero.string_of_int (Z.to_int n).

(** ** 1. Configuration and organisation-specific rules *)

Record globals := mk_globals
  { SHIFT_START : time;
    SHIFT_END : time;
    LATE_UNIT_MINUTES : Z;
    HALF_DAY_START_TIME_NEW : time;
    HALF_DAY_END_TIME_NEW : time;
    EVENING_HALF_DAY_TIME : time;
    ONE_HOUR_LEAVE_START_TIME : time;
    ONE_HOUR_LEAVE_END_TIME : time }.

Definition hm (h m : Z) : time := mk_time h m 0 0.

(** The module-level assignments of both scripts. *)
Definition module_globals : globals :=
  {| SHIFT_START := hm 9 15;
     SHIFT_END := hm 17 45;
     LATE_UNIT_MINUTES := 15;
     HALF_DAY_START_TIME_NEW := hm 10 16;
     HALF_DAY_END_TIME_NEW := hm 13 30;
     EVENING_HALF_DAY_TIME := hm 16 45;
     ONE_HOUR_LEAVE_START_TIME := hm 16 46;
     ONE_HOUR_LEAVE_END_TIME := hm 17 44 |}.

(** ** 2. Core calculation functions *)

Section RuleEngine.

(** The module globals the functions read, and the date [datetime.today()]
    returns while they run. *)
Variable G : globals.
Variable today : date.

Definition calculate_late_status (in_time : option time) : Z * string * Z :=
  match in_time with
  | None => (0, "Missing IN Time", 0)
  | Some in_time =>
      let shift_start_dt := combine today (SHIFT_START G) in
      let in_time_dt := combine today in_time in
      let half_day_start_dt_new := combine today (HALF_DAY_START_TIME_NEW G) in
      let half_day_end_dt_new := combine today (HALF_DAY_END_TIME_NEW G) in
      if datetime_ge in_time_dt half_day_start_dt_new
         && datetime_le in_time_dt half_day_end_dt_new
      then (0, "Half Day Leave (Morning IN)", 1)
      else
        let late_minutes :=
          (total_seconds (datetime_sub in_time_dt shift_start_dt) / 60)%Q in
        if Qle_bool late_minutes 0 then (0, "On Time", 0)
        else
          let late_units :=
            math_ceil (late_minutes / inject_Z (LATE_UNIT_MINUTES G))%Q in
          (late_units, (format_int late_units ++ " x 15 Min Late")%string, 0)
  end.

Definition calculate_early_out_status (out_time : option time)
  : Z * string * Z :=
  match out_time with
  | None => (0, "Missing OUT Time", 0)
  | Some out_time =>
      let shift_end_dt := combine today (SHIFT_END G) in
      let out_time_dt := combine today out_time in
      let early_out_minutes :=
        (total_seconds (datetime_sub shift_end_dt out_time_dt) / 60)%Q in
      if Qle_bool early_out_minutes 0 then (0, "On Time/Overtime", 0)
      else
        let one_hour_leave_start_dt :=
          combine today (ONE_HOUR_LEAVE_START_TIME G) in
        let one_hour_leave_end_dt :=
          combine today (ONE_HOUR_LEAVE_END_TIME G) in
        if datetime_ge out_time_dt one_hour_leave_start_dt
           && datetime_le out_time_dt one_hour_leave_end_dt
        then (1, "1 Hour Leave", 0)
        else
          let evening_half_day_dt :=
            combine today (EVENING_HALF_DAY_TIME G) in
          if datetime_le out_time_dt evening_half_day_dt
          then (0, "Half Day Leave (Evening OUT)", 1)
          else (0, "Other Early Out", 0)
  end.

End RuleEngine.

(** ** Python values and library functions used by the parsing stage *)

Module Py.

(** Exceptions that matter here.  [KeyboardInterrupt] stands for the
    [BaseException]s that are not [Exception]s. *)
Inductive exn : Type :=
  | ValueError | KeyError | IndexError | TypeError | OtherException
  | KeyboardInterrupt.

Definition is_Exception (e : exn) : bool :=
  match e with KeyboardInterrupt => false | _ => true end.

Inductive outcome (A : Type) : Type :=
  | Return (a : A)
  | Raise (e : exn).
Arguments Return {A} a.
Arguments Raise {A} e.

Definition bind {A B} (m : outcome A) (k : A -> outcome B) : outcome B :=
  match m with
  | Return a => k a
  | Raise e => Raise e
  end.

(** [str.isspace] on a code point below 256. *)
Definition isspace (c : ascii) : bool :=
  let n := nat_of_ascii c in
  ((9 <=? n) && (n <=? 13) || (28 <=? n) && (n <=? 32)
   || (n =? 133) || (n =? 160))%nat.

Fixpoint lstrip (s : string) : string :=
  match s with
  | EmptyString => EmptyString
  | String c s' => if isspace c then lstrip s' else s
  end.

Definition reverse (s : string) : string :=
  string_of_list_ascii (rev (list_ascii_of_string s)).

Definition rstrip (s : string) : string := reverse (lstrip (reverse s)).

(** [s.strip()] *)
Definition strip (s : string) : string := rstrip (lstrip s).

(** [s.split(sep)] for a one-character separator. *)
Fixpoint split (sep : ascii) (s : string) : list string :=
  match s with
  | EmptyString => [EmptyString]
  | String c s' =>
      if Ascii.eqb c sep then EmptyString :: split sep s'
      else match split sep s' with
           | h :: t => String c h :: t
           | [] => [String c EmptyString]
           end
  end.

(** [l[-1]] on a list known to be non-empty. *)
Definition last_item (l : list string) : string := last l EmptyString.

(** [x in l] for strings. *)
Definition str_in (x : string) (l : list string) : bool :=
  existsb (String.eqb x) l.

(** [re.search('^Employee:', s)] and [re.search('^Days$', s)] on a stripped
    cell, as [Series.str.contains] evaluates them. *)
Definition contains_Employee (s : string) : bool := prefix "Employee:" s.
Definition contains_Days (s : string) : bool :=
  String.eqb s "Days" || String.eqb s ("Days" ++ String "010"%char EmptyString).

(** [\d] on a code point below 256, and the digit's value. *)
Definition isdigit (c : ascii) : bool :=
  let n := nat_of_ascii c in ((48 <=? n) && (n <=? 57))%nat.

Definition digit_val (c : ascii) : Z := Z.of_nat (nat_of_ascii c) - 48.

Definition in_range (c : ascii) (lo hi : nat) : bool :=
  let n := nat_of_ascii c in ((lo <=? n) && (n <=? hi))%nat.

(** The ways the group [(?P<H>2[0-3]|[0-1]\d|\d)] matches a prefix, in the
    order the backtracking matcher tries them: captured value and rest. *)
Definition match_H (s : string) : list (Z * string) :=
  (match s with
   | String c1 (String c2 r) =>
       (if Ascii.eqb c1 "2"%char && in_range c2 48 51
        then [(10 * digit_val c1 + digit_val c2, r)] else [])
       ++
       (if in_range c1 48 49 && isdigit c2
        then [(10 * digit_val c1 + digit_val c2, r)] else [])
   | _ => []
   end)
  ++
  (match s with
   | String c1 r => if isdigit c1 then [(digit_val c1, r)] else []
   | EmptyString => []
   end).

(** The same for [(?P<M>[0-5]\d|\d)]. *)
Definition match_M (s : string) : list (Z * string) :=
  (match s with
   | String c1 (String c2 r) =>
       if in_range c1 48 53 && isdigit c2
       then [(10 * digit_val c1 + digit_val c2, r)] else []
   | _ => []
   end)
  ++
  (match s with
   | String c1 r => if isdigit c1 then [(digit_val c1, r)] else []
   | EmptyString => []
   end).

(** First success of [H ':' M] against a prefix of the data string. *)
Fixpoint first_match (hs : list (Z * string)) : option (Z * Z * string) :=
  match hs with
  | [] => None
  | (h, String c r) :: hs' =>
      if Ascii.eqb c ":"%char then
        match match_M r with
        | (m, r') :: _ => Some (h, m, r')
        | [] => first_match hs'
        end
      else first_match hs'
  | (_, EmptyString) :: hs' => first_match hs'
  end.

(** [datetime.strptime(s, "%H:%M").time()]: no match, or unconverted data
    after the match, raise [ValueError]. *)
Definition strptime_HM (s : string) : outcome time :=
  match first_match (match_H s) with
  | None => Raise ValueError
  | Some (h, m, rest) =>
      match rest with
      | EmptyString => Return (mk_time h m 0 0)
      | _ => Raise ValueError
      end
  end.

(** What [pd.to_datetime(s, errors='coerce')] returns for a string. *)
Inductive pd_scalar : Type :=
  | NaT
  | Timestamp (d : date) (t : time).

Definition notna (x : pd_scalar) : bool :=
  match x with NaT => false | Timestamp _ _ => true end.

End Py.
Export Py.

Section Parsing.

(** The permissive parser of pandas, [pd.to_datetime(s, errors='coerce')]:
    library code, taken as given.  It may return or raise. *)
Variable pd_to_datetime : string -> outcome pd_scalar.

Definition to_time_safe (s : string) : outcome (option time) :=
  let s := strip s in
  if String.eqb s "" || str_in s ["00:00"; "nan"; "NaT"] then Return None
  else
    match strptime_HM s with
    | Return t => Return (Some t)
    | Raise ValueError =>
        match pd_to_datetime s with
        | Return (Timestamp _ t) => Return (Some t)
        | Return NaT => Return None
        | Raise _ => Return None
        end
    | Raise e => Raise e
    end.

End Parsing.

(** ** 3. Data parsing *)

(** The raw frame after [fillna('')], every cell as [str(cell)]: a list of
    rows.  A DataFrame is rectangular; column labels are [0 .. ncols-1]
    ([header=None]). *)
Definition RawGrid := list (list string).

Definition ncols (df : RawGrid) : nat :=
  match df with
  | [] => O
  | r :: _ => List.length r
  end.

Definition rectangular (df : RawGrid) : bool :=
  forallb (fun r => Nat.eqb (List.length r) (ncols df)) df.

(** A scalar used as a row position: [Index.max()] gives an integer, or NaN
    on an empty index. *)
Inductive scalar : Type :=
  | Int (n : nat)
  | NaN
  | PyNone.

(** [x is None] *)
Definition is_None (x : scalar) : bool :=
  match x with PyNone => true | _ => false end.

(** [df[0]]: the column labelled 0, [KeyError] when the frame has none. *)
Definition column0 (df : RawGrid) : outcome (list string) :=
  match ncols df with
  | O => Raise KeyError
  | S _ => Return (map (fun r => nth 0 r EmptyString) df)
  end.

(** [df[mask].index.tolist()]: positions where the mask holds. *)
Fixpoint mask_index (p : string -> bool) (col : list string) (i : nat)
  : list nat :=
  match col with
  | [] => []
  | c :: col' =>
      if p c then i :: mask_index p col' (S i) else mask_index p col' (S i)
  end.

(** [Index.max()]: the largest label, NaN for an empty index. *)
Definition index_max (idx : list nat) : scalar :=
  match idx with
  | [] => NaN
  | i :: idx' => Int (fold_left Nat.max idx' i)
  end.

(** [df.iloc[r, c:].values]: an integer position out of bounds raises
    [IndexError]; a key that is not an integer raises [ValueError]. *)
Definition iloc_row_from (df : RawGrid) (r : scalar) (c : nat)
  : outcome (list string) :=
  match r with
  | Int n =>
      match nth_error df n with
      | Some row => Return (skipn c row)
      | None => Raise IndexError
      end
  | _ => Raise ValueError
  end.

(** [df.iloc[r, c]] *)
Definition iloc_cell (df : RawGrid) (r c : nat) : outcome string :=
  match nth_error df r with
  | Some row =>
      match nth_error row c with
      | Some x => Return x
      | None => Raise IndexError
      end
  | None => Raise IndexError
  end.

(** A row of [temp_df] / [df_structured]. *)
Record StructuredRow := mk_structured
  { Employee_Raw : string;
    Date_Day : string;
    Status : string;
    InTime_Raw : string;
    OutTime_Raw : string;
    Employee_Name : string;
    Time_In : option time;
    Time_Out : option time }.

(** A row of the frame [restructure_attendance_data] returns. *)
Record AttendanceRecord := mk_record
  { rec_Employee_Name : string;
    rec_Date_Day : string;
    rec_Time_In : option time;
    rec_Time_Out : option time }.

(** The message [st.error] shows. *)
Inductive diagnostic : Type :=
  | SevereStructuralError (e : exn).

(** [Series.apply]: the function runs on every element in turn and the
    first exception ends the call. *)
Fixpoint series_apply {A B} (f : A -> outcome B) (l : list A)
  : outcome (list B) :=
  match l with
  | [] => Return []
  | x :: l' =>
      bind (f x) (fun y =>
      bind (series_apply f l') (fun ys => Return (y :: ys)))
  end.

(** The four equally long columns of [temp_df], row by row. *)
Fixpoint zip4 (a b c d : list string)
  : list (string * string * string * string) :=
  match a, b, c, d with
  | x :: a', y :: b', z :: c', w :: d' => (x, y, z, w) :: zip4 a' b' c' d'
  | _, _, _, _ => []
  end.

Section Extraction.

Variable pd_to_datetime : string -> outcome pd_scalar.

Definition TIME_START_COL_INDEX : nat := 2.

(** The three [iloc] reads under the inner [try]; [IndexError] is the
    exception the handler catches. *)
Definition read_block (df_raw : RawGrid) (emp_row_index : nat)
  : outcome (list string * list string * list string) :=
  let status_row_index := (emp_row_index + 1)%nat in
  let intime_row_index := (emp_row_index + 2)%nat in
  let outtime_row_index := (emp_row_index + 3)%nat in
  bind (iloc_row_from df_raw (Int status_row_index) TIME_START_COL_INDEX)
    (fun st =>
  bind (iloc_row_from df_raw (Int intime_row_index) TIME_START_COL_INDEX)
    (fun it =>
  bind (iloc_row_from df_raw (Int outtime_row_index) TIME_START_COL_INDEX)
    (fun ot => Return (map strip st, map strip it, map strip ot)))).

(** [temp_df] for one block, with its three derived columns. *)
Definition make_temp_df (employee_str : string)
  (day_headers_list_full status_data intime_data outtime_data : list string)
  : outcome (list StructuredRow) :=
  let min_len :=
    Nat.min (List.length day_headers_list_full)
      (Nat.min (List.length status_data)
         (Nat.min (List.length intime_data) (List.length outtime_data))) in
  series_apply
    (fun '(d, st, it, ot) =>
       let name := strip (last_item (split ":"%char employee_str)) in
       bind (to_time_safe pd_to_datetime it) (fun tin =>
       bind (to_time_safe pd_to_datetime ot) (fun tout =>
       Return (mk_structured employee_str d st it ot name tin tout))))
    (zip4 (firstn min_len day_headers_list_full) (firstn min_len status_data)
       (firstn min_len intime_data) (firstn min_len outtime_data)).

(** The [for emp_row_index in emp_rows] loop; [final_data] is the list of
    appended frames. *)
Fixpoint block_loop (df_raw : RawGrid) (day_headers_list_full : list string)
  (emp_rows : list nat) (final_data : list (list StructuredRow))
  : outcome (list (list StructuredRow)) :=
  match emp_rows with
  | [] => Return final_data
  | emp_row_index :: rest =>
      bind (iloc_cell df_raw emp_row_index 3) (fun employee_str =>
      if String.eqb (strip employee_str) "" then
        block_loop df_raw day_headers_list_full rest final_data
      else
        match read_block df_raw emp_row_index with
        | Raise IndexError =>
            block_loop df_raw day_headers_list_full rest final_data
        | Raise e => Raise e
        | Return (status_data, intime_data, outtime_data) =>
            bind (make_temp_df employee_str day_headers_list_full
                    status_data intime_data outtime_data)
              (fun temp_df =>
                 match temp_df with
                 | [] =>
                     block_loop df_raw day_headers_list_full rest final_data
                 | _ :: _ =>
                     block_loop df_raw day_headers_list_full rest
                       (final_data ++ [temp_df])
                 end)
        end)
  end.

Definition is_present (r : StructuredRow) : bool := String.eqb (Status r) "P".

Definition has_time (r : StructuredRow) : bool :=
  match Time_In r, Time_Out r with
  | None, None => false
  | _, _ => true
  end.

Definition project (r : StructuredRow) : AttendanceRecord :=
  mk_record (Employee_Name r) (Date_Day r) (Time_In r) (Time_Out r).

(** The body of the outer [try]. *)
Definition restructure_try (df_raw : RawGrid)
  : outcome (list AttendanceRecord) :=
  bind (column0 df_raw) (fun col0 =>
  let col0 := map strip col0 in
  let emp_rows := mask_index contains_Employee col0 O in
  let days_row_index := index_max (mask_index contains_Days col0 O) in
  if is_None days_row_index then Return []
  else
    bind (iloc_row_from df_raw days_row_index TIME_START_COL_INDEX)
      (fun day_headers_raw =>
    let day_headers_list_full := map strip day_headers_raw in
    bind (block_loop df_raw day_headers_list_full emp_rows [])
      (fun final_data =>
    match final_data with
    | [] => Return []
    | _ :: _ =>
        let df_structured := List.concat final_data in
        let df_clean := filter is_present df_structured in
        let df_clean := filter has_time df_clean in
        Return (map project df_clean)
    end))).

(** [restructure_attendance_data]: the frame it returns (or the exception
    that escapes it) and what it reported through [st.error]. *)
Definition restructure_attendance_data (df_raw : RawGrid)
  : outcome (list AttendanceRecord) * list diagnostic :=
  match restructure_try df_raw with
  | Return df => (Return df, [])
  | Raise e =>
      if is_Exception e then (Return [], [SevereStructuralError e])
      else (Raise e, [])
  end.

End Extraction.

(** ** Daily classification and the two reports *)

(** A row of [employee_data] / [df_calculated] once the six computed
    columns are attached. *)
Record CalculatedRow := mk_calculated
  { c_Employee_Name : string;
    c_Date_Day : string;
    c_Time_In : option time;
    c_Time_Out : option time;
    late_units : Z;
    late_classification : string;
    is_morning_half_day : Z;
    early_out_units : Z;
    early_out_classification : string;
    is_evening_half_day : Z }.

(** Truth value of a Python integer. *)
Definition truthy (z : Z) : bool := negb (z =? 0).

Definition is_none {A} (x : option A) : bool :=
  match x with None => true | Some _ => false end.

Definition get_day_classification (row : CalculatedRow) : string :=
  let is_m_half := is_morning_half_day row in
  let is_e_half := is_evening_half_day row in
  let is_1hr_leave := early_out_units row =? 1 in
  let late_units := late_units row in
  if truthy is_m_half && truthy is_e_half
  then "FULL Day Leave (Morn + Even Half)"
  else if truthy is_m_half then "Half Day Leave (Morning IN)"
  else if truthy is_e_half then "Half Day Leave (Evening OUT)"
  else if is_1hr_leave then "1 Hour Leave (Early OUT)"
  else if late_units >? 0
       then (format_int late_units ++ " x 15 Min Late")%string
  else if is_none (c_Time_In row) || is_none (c_Time_Out row)
       then "Incomplete Record"
  else "On Time".

(** [Series.sum()] of an integer column. *)
Definition col_sum {A} (f : A -> Z) (df : list A) : Z :=
  fold_left Z.add (map f df) 0.

(** [(column == v).sum()]: the number of rows where the test holds. *)
Definition count_true {A} (p : A -> bool) (df : list A) : Z :=
  col_sum (fun r => if p r then 1 else 0) df.

(** Keys of a [groupby]: the distinct values in ascending order. *)
Fixpoint insert_key (k : string) (ks : list string) : list string :=
  match ks with
  | [] => [k]
  | k' :: ks' =>
      match String.compare k k' with
      | Lt => k :: ks
      | Eq => ks
      | Gt => k' :: insert_key k ks'
      end
  end.

Definition group_keys (col : list string) : list string :=
  fold_right insert_key [] col.

Section Reports.

Variable G : globals.
Variable today : date.

(** The two [apply(lambda x: pd.Series(...))] assignments. *)
Definition calculate (r : AttendanceRecord) : CalculatedRow :=
  let '(lu, lc, mh) :=
    match rec_Time_In r with
    | Some x => calculate_late_status G today (Some x)
    | None => (0, "Missing IN Time", 0)
    end in
  let '(eu, ec, eh) :=
    match rec_Time_Out r with
    | Some x => calculate_early_out_status G today (Some x)
    | None => (0, "Missing OUT Time", 0)
    end in
  mk_calculated (rec_Employee_Name r) (rec_Date_Day r)
    (rec_Time_In r) (rec_Time_Out r) lu lc mh eu ec eh.

(** *** bbb.py *)

Record DetailRow := mk_detail
  { d_Employee_Name : string;
    d_Date_Day : string;
    d_Time_In : option time;
    d_Time_Out : option time;
    Day_Classification : string }.

Inductive employee_report : Type :=
  | NoData (msg : string)
  | Report (summary_df : list (string * Z)) (report_details : list DetailRow).

(** [df_processed] is a frame that carries the four columns; [app] returns
    before the call when the parsed frame is empty. *)
Definition generate_employee_report (df_processed : list AttendanceRecord)
  (employee_name : string) : employee_report :=
  let employee_data :=
    filter (fun r => String.eqb (rec_Employee_Name r) employee_name)
      df_processed in
  match employee_data with
  | [] => NoData "No data found for this employee."
  | _ :: _ =>
      let employee_data := map calculate employee_data in
      let total_late_units := col_sum late_units employee_data in
      let total_1_hr_leaves :=
        count_true (fun r => early_out_units r =? 1) employee_data in
      let total_half_day_incidents :=
        col_sum is_morning_half_day employee_data
        + col_sum is_evening_half_day employee_data in
      let summary :=
        [ ("Total 15 Min Late Units", total_late_units);
          ("Total Half Day Incidents", total_half_day_incidents);
          ("Total 1 Hour Leaves", total_1_hr_leaves) ] in
      let report_details :=
        map (fun r =>
               mk_detail (c_Employee_Name r) (c_Date_Day r) (c_Time_In r)
                 (c_Time_Out r) (get_day_classification r))
          employee_data in
      Report summary report_details
  end.

(** *** vv.py *)

(** A row of [df_calculated] with the two flags [np.where] adds. *)
Record ConsolidatedRow := mk_consolidated
  { calc : CalculatedRow;
    is_half_day : Z;
    is_one_hour_leave : Z }.

Definition add_flags (r : CalculatedRow) : ConsolidatedRow :=
  let is_half_day :=
    if (is_morning_half_day r =? 1) || (is_evening_half_day r =? 1)
    then 1 else 0 in
  let is_one_hour_leave :=
    if (is_half_day =? 0) && (early_out_units r =? 1) then 1 else 0 in
  mk_consolidated r is_half_day is_one_hour_leave.

(** A row of [consolidated_summary]. *)
Record SummaryRow := mk_summary
  { s_Employee_Name : string;
    s_15_Min_Late_Units : Z;
    s_Half_Day_Incidents : Z;
    s_1_Hour_Leaves : Z }.

Definition group_of (k : string) (df : list ConsolidatedRow)
  : list ConsolidatedRow :=
  filter (fun r => String.eqb (c_Employee_Name (calc r)) k) df.

Inductive consolidated_report : Type :=
  | EmptyFrame
  | Consolidated (consolidated_summary : list SummaryRow)
      (df_calculated : list ConsolidatedRow).

Definition generate_consolidated_report (df_processed : list AttendanceRecord)
  : consolidated_report :=
  match df_processed with
  | [] => EmptyFrame
  | _ :: _ =>
      let df_calculated := map calculate df_processed in
      let df_calculated := map add_flags df_calculated in
      let consolidated_summary :=
        map (fun k =>
               let g := group_of k df_calculated in
               mk_summary k
                 (col_sum (fun r => late_units (calc r)) g)
                 (col_sum is_half_day g)
                 (col_sum is_one_hour_leave g))
          (group_keys (map (fun r => c_Employee_Name (calc r)) df_calculated))
      in
      Consolidated consolidated_summary df_calculated
  end.

End Reports.

(** ** The rule engine as the specification words it

    Times of day are ordered by their distance from midnight; lateness is
    the signed distance from 09:15 and a late unit is a started quarter of
    an hour. *)

Definition time_le (a b : time) : Prop := time_us a <= time_us b.
Definition time_lt (a b : time) : Prop := time_us a < time_us b.

Definition minute_us : Z := 60000000.

(** Ceiling of [a / b] for a positive [b]. *)
Definition ceil_div (a b : Z) : Z := (a + b - 1) / b.

Definition classify_in_spec (time_in : option time) : Z * string * Z :=
  match time_in with
  | None => (0, "Missing IN Time", 0)
  | Some t =>
      let x := time_us t in
      if (time_us (hm 10 16) <=? x) && (x <=? time_us (hm 13 30))
      then (0, "Half Day Leave (Morning IN)", 1)
      else
        let late := x - time_us (hm 9 15) in
        if late <=? 0 then (0, "On Time", 0)
        else
          let units := ceil_div late (15 * minute_us) in
          (units, (format_int units ++ " x 15 Min Late")%string, 0)
  end.

Definition in_morning_window (t : time) : Prop :=
  time_le (hm 10 16) t /\ time_le t (hm 13 30).

(** The early-out ladder on distances from midnight, for any globals. *)
Definition classify_out_us (G : globals) (t : time) : Z * string * Z :=
  let x := time_us t in
  if time_us (SHIFT_END G) - x <=? 0 then (0, "On Time/Overtime", 0)
  else if (time_us (ONE_HOUR_LEAVE_START_TIME G) <=? x)
          && (x <=? time_us (ONE_HOUR_LEAVE_END_TIME G))
  then (1, "1 Hour Leave", 0)
  else if x <=? time_us (EVENING_HALF_DAY_TIME G)
  then (0, "Half Day Leave (Evening OUT)", 1)
  else (0, "Other Early Out", 0).

Definition valid_globals (G : globals) : Prop :=
  valid_time (SHIFT_START G) /\ valid_time (SHIFT_END G)
  /\ valid_time (HALF_DAY_START_TIME_NEW G)
  /\ valid_time (HALF_DAY_END_TIME_NEW G)
  /\ valid_time (EVENING_HALF_DAY_TIME G)
  /\ valid_time (ONE_HOUR_LEAVE_START_TIME G)
  /\ valid_time (ONE_HOUR_LEAVE_END_TIME G).

(** ** Sample inputs *)

Definition sample_today : date := mk_date 2024 2 29.

(** A stand-in for the pandas parser, enough to run examples: it knows a
    few clock strings with seconds, dates them on the day it runs, and
    answers NaT otherwise. *)
Definition pd_sample_on (d : date) (s : string) : outcome pd_scalar :=
  if String.eqb s "09:15:01" then Return (Timestamp d (mk_time 9 15 1 0))
  else if String.eqb s "16:45:30" then Return (Timestamp d (mk_time 16 45 30 0))
  else Return NaT.

Definition pd_sample : string -> outcome pd_scalar :=
  pd_sample_on sample_today.



(** Globals in which the one-hour window and the evening threshold
    overlap. *)
Definition overlapping_globals : globals :=
  {| SHIFT_START := hm 9 15;
     SHIFT_END := hm 17 45;
     LATE_UNIT_MINUTES := 15;
     HALF_DAY_START_TIME_NEW := hm 10 16;
     HALF_DAY_END_TIME_NEW := hm 13 30;
     EVENING_HALF_DAY_TIME := hm 17 0;
     ONE_HOUR_LEAVE_START_TIME := hm 16 46;
     ONE_HOUR_LEAVE_END_TIME := hm 17 44 |}.

(** ** The daily ladder and the report counts as the specification words
    them *)

(** The labels of the ladder for a row, in priority order. *)
Definition ladder_labels (row : CalculatedRow) : list string :=
  [ "FULL Day Leave (Morn + Even Half)";
    "Half Day Leave (Morning IN)";
    "Half Day Leave (Evening OUT)";
    "1 Hour Leave (Early OUT)";
    (format_int (late_units row) ++ " x 15 Min Late")%string;
    "Incomplete Record";
    "On Time" ].

(** The classified records of one employee. *)
Definition employee_rows (G : globals) (today : date)
  (df_processed : list AttendanceRecord) (employee_name : string)
  : list CalculatedRow :=
  map (calculate G today)
    (filter (fun r => String.eqb (rec_Employee_Name r) employee_name)
       df_processed).

(** What one record adds to each count. *)
Definition half_day_sum (c : CalculatedRow) : Z :=
  is_morning_half_day c + is_evening_half_day c.

Definition half_day_or (c : CalculatedRow) : Z :=
  Z.max (is_morning_half_day c) (is_evening_half_day c).

Definition one_hour_any (c : CalculatedRow) : Z :=
  if early_out_units c =? 1 then 1 else 0.

Definition one_hour_not_half_day (c : CalculatedRow) : Z :=
  if (half_day_or c =? 0) && (early_out_units c =? 1) then 1 else 0.

(** A morning half day that also leaves before 16:45, and one that leaves
    in the one-hour window. *)
Definition both_halves : AttendanceRecord :=
  mk_record "Bob" "1 M" (Some (hm 11 0)) (Some (hm 16 0)).

Definition half_and_hour : AttendanceRecord :=
  mk_record "Bob" "2 T" (Some (hm 11 0)) (Some (hm 17 0)).

Definition flagged_row : CalculatedRow :=
  mk_calculated "Bob" "1 M" (Some (hm 11 0)) (Some (hm 16 0))
    3 "3 x 15 Min Late" 1 1 "1 Hour Leave" 1.

(** ** The two scripts end to end

    [app] parses the upload once and reports: [bbb.py] per employee, over
    [sorted(df_processed['Employee Name'].unique())]; [vv.py] in one
    consolidated table. *)

Definition app_employee_reports (pd_to_datetime : string -> outcome pd_scalar)
  (G : globals) (today : date) (df_raw : RawGrid)
  : list (string * employee_report) :=
  match fst (restructure_attendance_data pd_to_datetime df_raw) with
  | Return (r :: df) =>
      let df_processed := r :: df in
      let employee_list := group_keys (map rec_Employee_Name df_processed) in
      map (fun employee =>
             (employee, generate_employee_report G today df_processed employee))
        employee_list
  | _ => []
  end.


(** A sheet with the day header, one named employee, one anchor whose name
    cell ends in a colon, and one anchor with an empty name cell. *)
Definition sample_grid : RawGrid :=
  [ ["Days"; ""; "1 M"; "2 T"; "3 W"];
    ["Employee:"; ""; ""; "Name : Bob"; ""];
    ["Status"; ""; "P"; "A"; "P"];
    ["InTime"; ""; "09:15:01"; ""; "10:20"];
    ["OutTime"; ""; "18:00"; ""; "16:00"];
    ["Employee:"; ""; ""; "Name:"; ""];
    ["Status"; ""; "P"; "A"; "P"];
    ["InTime"; ""; "09:00"; ""; "11:00"];
    ["OutTime"; ""; "17:00"; ""; "16:45:30"];
    ["Employee:"; ""; ""; "  "; ""];
    ["Status"; ""; "P"; "P"; "P"];
    ["InTime"; ""; "09:00"; "09:00"; "09:00"];
    ["OutTime"; ""; "18:00"; "18:00"; "18:00"] ].

(** The same sheet without its day header. *)
Definition headerless_grid : RawGrid := tl sample_grid.

(** The cells [to_time_safe] answers without parsing. *)
Definition is_blank_literal (s : string) : Prop :=
  strip s = "" \/ strip s = "00:00" \/ strip s = "nan" \/ strip s = "NaT".

(** No row of the grid carries the tag "Days" in column 0. *)
Definition no_Days_row (df : RawGrid) : Prop :=
  forall row, In row df -> strip (nth 0 row EmptyString) <> "Days".

(** Row [i] of the grid is an employee anchor. *)
Definition anchor_row (df : RawGrid) (i : nat) : Prop :=
  exists row, nth_error df i = Some row
              /\ contains_Employee (strip (nth 0 row EmptyString)) = true.

(** The display name read from a name cell. *)
Definition name_of_cell (cell : string) : string :=
  strip (last_item (split ":"%char cell)).

(** The string has a character that is not white space. *)
Definition has_visible_char (s : string) : Prop :=
  exists c, In c (list_ascii_of_string s) /\ isspace c = false.

Definition all_space (s : string) : bool :=
  forallb isspace (list_ascii_of_string s).

(** The name comes from the name cell of an anchor row, and that cell is
    not empty after trimming. *)
Definition named_by_anchor (df : RawGrid) (name : string) : Prop :=
  exists i cell,
    anchor_row df i
    /\ iloc_cell df i 3 = Return cell
    /\ strip cell <> ""
    /\ name = name_of_cell cell
    /\ (name <> "" <-> has_visible_char (last_item (split ":"%char cell))).

(** What the sample sheet parses to. *)
Definition sample_records : list AttendanceRecord :=
  Eval vm_compute in
    match fst (restructure_attendance_data pd_sample sample_grid) with
    | Return df => df
    | Raise _ => []
    end.

(** ** The day label as a function of the two times of a record *)

Definition morning_window_b (t : time) : bool :=
  (time_us (hm 10 16) <=? time_us t) && (time_us t <=? time_us (hm 13 30)).

Definition one_hour_window_b (t : time) : bool :=
  (time_us (hm 16 46) <=? time_us t) && (time_us t <=? time_us (hm 17 44)).

Definition evening_half_b (t : time) : bool :=
  time_us t <=? time_us (hm 16 45).

Definition day_label_of_times (time_in time_out : option time) : string :=
  let morning :=
    match time_in with Some t => morning_window_b t | None => false end in
  let evening :=
    match time_out with Some t => evening_half_b t | None => false end in
  let one_hour :=
    match time_out with Some t => one_hour_window_b t | None => false end in
  let late :=
    match time_in with
    | Some t =>
        if morning_window_b t then 0
        else if time_us t <=? time_us (hm 9 15) then 0
        else ceil_div (time_us t - time_us (hm 9 15)) (15 * minute_us)
    | None => 0
    end in
  if morning && evening then "FULL Day Leave (Morn + Even Half)"
  else if morning then "Half Day Leave (Morning IN)"
  else if evening then "Half Day Leave (Evening OUT)"
  else if one_hour then "1 Hour Leave (Early OUT)"
  else if late >? 0 then (format_int late ++ " x 15 Min Late")%string
  else if is_none time_in || is_none time_out then "Incomplete Record"
  else "On Time".

(** The times a record carries are values of [datetime.time]. *)
Definition valid_opt (x : option time) : Prop :=
  match x with Some t => valid_time t | None => True end.

Definition valid_record (r : AttendanceRecord) : Prop :=
  valid_opt (rec_Time_In r) /\ valid_opt (rec_Time_Out r).

(** ** Positions in the raw grid *)

(** The cell at row [i], column [j], when the grid has one. *)
Definition cell_at (df : RawGrid) (i j : nat) : option string :=
  match nth_error df i with
  | Some row => nth_error row j
  | None => None
  end.

(** The tag of row [i]: its column-0 cell, stripped. *)
Definition row_tag (df : RawGrid) (i : nat) : option string :=
  option_map (fun row => strip (nth 0 row EmptyString)) (nth_error df i).

(** Row [d] is the last row tagged "Days". *)
Definition last_Days_row (df : RawGrid) (d : nat) : Prop :=
  (exists tag, row_tag df d = Some tag /\ contains_Days tag = true)
  /\ forall d' tag, row_tag df d' = Some tag -> contains_Days tag = true ->
                    (d' <= d)%nat.

Definition on_time_with_gap : AttendanceRecord :=
  mk_record "Bob" "1 M" (Some (hm 9 0)) (Some (mk_time 17 44 30 0)).

(** The record is read from column [j] of the block anchored at row [i],
    under the day header of row [d]. *)
Definition record_from_column (pd : string -> outcome pd_scalar)
  (df : RawGrid) (d i j : nat) (r : AttendanceRecord) : Prop :=
  exists name_cell day st tin tout,
    cell_at df i 3 = Some name_cell
    /\ strip name_cell <> ""
    /\ cell_at df d j = Some day
    /\ cell_at df (i + 1) j = Some st
    /\ cell_at df (i + 2) j = Some tin
    /\ cell_at df (i + 3) j = Some tout
    /\ strip st = "P"
    /\ rec_Employee_Name r = name_of_cell name_cell
    /\ rec_Date_Day r = strip day
    /\ to_time_safe pd (strip tin) = Return (rec_Time_In r)
    /\ to_time_safe pd (strip tout) = Return (rec_Time_Out r).

(** The same for a row of [temp_df], before the status filter. *)
Definition row_from_column (pd : string -> outcome pd_scalar)
  (df : RawGrid) (d i j : nat) (row : StructuredRow) : Prop :=
  exists name_cell day st tin tout,
    cell_at df i 3 = Some name_cell
    /\ strip name_cell <> ""
    /\ cell_at df d j = Some day
    /\ cell_at df (i + 1) j = Some st
    /\ cell_at df (i + 2) j = Some tin
    /\ cell_at df (i + 3) j = Some tout
    /\ Status row = strip st
    /\ Employee_Name row = name_of_cell name_cell
    /\ Date_Day row = strip day
    /\ to_time_safe pd (strip tin) = Return (Time_In row)
    /\ to_time_safe pd (strip tout) = Return (Time_Out row).

(** A three-column sheet with a header and one block. *)
Definition narrow_grid : RawGrid :=
  [ ["Days"; ""; "1 M"];
    ["Employee:"; "Bob"; ""];
    ["Status"; ""; "P"];
    ["InTime"; ""; "09:00"];
    ["OutTime"; ""; "18:00"] ].

(** ** The strict clock format, read directly *)

(** The value of a field of one or two decimal digits. *)
Definition field_value (s : string) : option Z :=
  match s with
  | String c1 EmptyString =>
      if isdigit c1 then Some (digit_val c1) else None
  | String c1 (String c2 EmptyString) =>
      if isdigit c1 && isdigit c2
      then Some (10 * digit_val c1 + digit_val c2) else None
  | _ => None
  end.

(** An hour field and a minute field in range. *)
Definition clock_of (h m : string) : option time :=
  match field_value h, field_value m with
  | Some hv, Some mv =>
      if (hv <? 24) && (mv <? 60) then Some (mk_time hv mv 0 0) else None
  | _, _ => None
  end.

(** ** Order of the report rows *)

(** Python orders strings by code point, first difference first. *)
Definition str_lt (a b : string) : Prop := String.compare a b = Lt.

(** The keys are strictly ascending: each is below all that follow. *)
Fixpoint ascending (ks : list string) : Prop :=
  match ks with
  | [] => True
  | k :: ks' => (forall k', In k' ks' -> str_lt k k') /\ ascending ks'
  end.

(** A record with both half-day flags, and a half-day record that also
    has an early-out unit. *)
Definition both_flags (c : CalculatedRow) : bool :=
  (is_morning_half_day c =? 1) && (is_evening_half_day c =? 1).

Definition half_day_with_hour (c : CalculatedRow) : bool :=
  ((is_morning_half_day c =? 1) || (is_evening_half_day c =? 1))
  && (early_out_units c =? 1).

(** ** Runs of the scripts under a clock *)






(** * Properties *)

(** ** Comparison and subtraction of datetimes on one date *)

Lemma tuple_cmp_time (a b : time) :
  valid_time a -> valid_time b ->
  tuple_cmp [hour a; minute a; second a; microsecond a]
            [hour b; minute b; second b; microsecond b]
  = (time_us a ?= time_us b).
Proof.
  intros (Ha1 & Ha2 & Ha3 & Ha4) (Hb1 & Hb2 & Hb3 & Hb4).
  unfold time_us; cbn [tuple_cmp].
  destruct (Z.compare_spec (hour a) (hour b));
    [destruct (Z.compare_spec (minute a) (minute b));
      [destruct (Z.compare_spec (second a) (second b));
        [destruct (Z.compare_spec (microsecond a) (microsecond b))| |]| |]| |];
    symmetry;
    first [ apply Z.compare_eq_iff; lia
          | apply Z.compare_lt_iff; lia
          | apply Z.compare_gt_iff; lia ].
Qed.

Lemma datetime_cmp_combine (d : date) (a b : time) :
  valid_time a -> valid_time b ->
  datetime_cmp (combine d a) (combine d b) = (time_us a ?= time_us b).
Proof.
  intros Ha Hb. unfold datetime_cmp, datetime_fields, combine.
  cbn [dt_date dt_time tuple_cmp]. rewrite !Z.compare_refl.
  now apply tuple_cmp_time.
Qed.

Lemma datetime_le_combine (d : date) (a b : time) :
  valid_time a -> valid_time b ->
  datetime_le (combine d a) (combine d b) = (time_us a <=? time_us b).
Proof.
  intros Ha Hb. unfold datetime_le. rewrite datetime_cmp_combine by assumption.
  unfold Z.leb. now destruct (time_us a ?= time_us b).
Qed.

Lemma datetime_ge_combine (d : date) (a b : time) :
  valid_time a -> valid_time b ->
  datetime_ge (combine d a) (combine d b) = (time_us b <=? time_us a).
Proof.
  intros Ha Hb. unfold datetime_ge. rewrite datetime_cmp_combine by assumption.
  unfold Z.leb. rewrite (Z.compare_antisym (time_us a) (time_us b)).
  now destruct (time_us a ?= time_us b).
Qed.

Lemma datetime_sub_combine (d : date) (a b : time) :
  datetime_sub (combine d a) (combine d b) = time_us a - time_us b.
Proof.
  unfold datetime_sub, combine; cbn [dt_date dt_time]. lia.
Qed.

(** ** The two float expressions, exactly *)

Lemma minutes_nonpos (td : Z) :
  Qle_bool (total_seconds td / 60) 0 = (td <=? 0).
Proof.
  unfold total_seconds, Qle_bool, Qdiv, Qmult, Qinv; cbn.
  apply eq_true_iff_eq. rewrite !Z.leb_le. lia.
Qed.

Lemma ceil_div_spec (a b : Z) :
  0 < b -> b * (ceil_div a b - 1) < a <= b * ceil_div a b.
Proof.
  intros Hb. unfold ceil_div.
  pose proof (Z.div_mod (a + b - 1) b ltac:(lia)) as E.
  pose proof (Z.mod_pos_bound (a + b - 1) b Hb) as B.
  lia.
Qed.

Lemma ceil_unique (a b u v : Z) :
  0 < b ->
  b * (u - 1) < a <= b * u -> b * (v - 1) < a <= b * v -> u = v.
Proof. intros Hb Hu Hv. nia. Qed.

Lemma units_exact (td : Z) :
  math_ceil (total_seconds td / 60 / inject_Z 15)
  = ceil_div td (15 * minute_us).
Proof.
  unfold math_ceil, Qceiling, Qfloor, total_seconds, Qdiv, Qmult, Qinv, Qopp.
  cbn.
  apply (ceil_unique td 900000000); [lia | | apply ceil_div_spec; lia].
  rewrite !Z.mul_1_r.
  pose proof (Z.div_mod (- td) 900000000 ltac:(lia)) as E.
  pose proof (Z.mod_pos_bound (- td) 900000000 ltac:(lia)) as B.
  lia.
Qed.

(** ** The strict parse gives whole minutes of a valid time *)

Lemma in_range_bounds (c : ascii) (lo hi : nat) :
  in_range c lo hi = true -> (lo <= nat_of_ascii c <= hi)%nat.
Proof.
  unfold in_range. rewrite andb_true_iff, !Nat.leb_le. tauto.
Qed.

Lemma isdigit_bounds (c : ascii) : isdigit c = true -> 0 <= digit_val c <= 9.
Proof.
  unfold isdigit, digit_val. rewrite andb_true_iff, !Nat.leb_le. lia.
Qed.

Lemma match_H_bounds (s : string) (h : Z) (r : string) :
  In (h, r) (match_H s) -> 0 <= h < 24.
Proof.
  unfold match_H. intros H. apply in_app_or in H. destruct H as [H|H].
  - destruct s as [|c1 [|c2 s]]; try contradiction.
    apply in_app_or in H. destruct H as [H|H].
    + destruct (Ascii.eqb c1 "2") eqn:E1; [|contradiction].
      destruct (in_range c2 48 51) eqn:E2; [|contradiction].
      destruct H as [H|[]]. apply (f_equal fst) in H; cbn [fst] in H; subst.
      apply Ascii.eqb_eq in E1. subst c1.
      apply in_range_bounds in E2. unfold digit_val.
      change (nat_of_ascii "2") with 50%nat. lia.
    + destruct (in_range c1 48 49) eqn:E1; [|contradiction].
      destruct (isdigit c2) eqn:E2; [|contradiction].
      destruct H as [H|[]]. apply (f_equal fst) in H; cbn [fst] in H; subst.
      apply in_range_bounds in E1. apply isdigit_bounds in E2.
      unfold digit_val in *. lia.
  - destruct s as [|c1 s]; [contradiction|].
    destruct (isdigit c1) eqn:E1; [|contradiction].
    destruct H as [H|[]]. apply (f_equal fst) in H; cbn [fst] in H; subst.
    apply isdigit_bounds in E1. lia.
Qed.

Lemma match_M_bounds (s : string) (m : Z) (r : string) :
  In (m, r) (match_M s) -> 0 <= m < 60.
Proof.
  unfold match_M. intros H. apply in_app_or in H. destruct H as [H|H].
  - destruct s as [|c1 [|c2 s]]; try contradiction.
    destruct (in_range c1 48 53) eqn:E1; [|contradiction].
    destruct (isdigit c2) eqn:E2; [|contradiction].
    destruct H as [H|[]]. apply (f_equal fst) in H; cbn [fst] in H; subst.
    apply in_range_bounds in E1. apply isdigit_bounds in E2.
    unfold digit_val in *. lia.
  - destruct s as [|c1 s]; [contradiction|].
    destruct (isdigit c1) eqn:E1; [|contradiction].
    destruct H as [H|[]]. apply (f_equal fst) in H; cbn [fst] in H; subst.
    apply isdigit_bounds in E1. lia.
Qed.

Lemma first_match_bounds (hs : list (Z * string)) (h m : Z) (rest : string) :
  (forall h' r, In (h', r) hs -> 0 <= h' < 24) ->
  first_match hs = Some (h, m, rest) -> 0 <= h < 24 /\ 0 <= m < 60.
Proof.
  induction hs as [|[h0 r0] hs IH]; intros Hb H; [discriminate|].
  assert (Hb' : forall h' r, In (h', r) hs -> 0 <= h' < 24)
    by (intros h' r Hin; apply (Hb h' r); now right).
  cbn [first_match] in H.
  destruct r0 as [|c r]; [now apply IH|].
  destruct (Ascii.eqb c ":"); [|now apply IH].
  destruct (match_M r) as [|[m0 r'] ms] eqn:EM; [now apply IH|].
  injection H as <- <- <-.
  split; [apply (Hb h0 (String c r)); now left|].
  apply (match_M_bounds r m0 r'). rewrite EM. now left.
Qed.

Lemma strptime_HM_whole_minute (s : string) (t : time) :
  strptime_HM s = Return t ->
  valid_time t /\ second t = 0 /\ microsecond t = 0.
Proof.
  unfold strptime_HM.
  destruct (first_match (match_H s)) as [[[h m] rest]|] eqn:E;
    [|discriminate].
  destruct rest; [|discriminate].
  intros H. injection H as <-.
  destruct (first_match_bounds _ _ _ _ (match_H_bounds s) E) as (Hh & Hm).
  unfold valid_time; cbn. lia.
Qed.

(** ** RuleEngine *)

Lemma valid_timeb_correct (t : time) : valid_timeb t = true -> valid_time t.
Proof.
  unfold valid_timeb, valid_time. rewrite !andb_true_iff.
  rewrite !Z.leb_le, !Z.ltb_lt. tauto.
Qed.

Ltac valid_const := apply valid_timeb_correct; reflexivity.

Lemma late_status_refines (today : date) (t : time) :
  valid_time t ->
  calculate_late_status module_globals today (Some t)
  = classify_in_spec (Some t).
Proof.
  intros Ht. unfold calculate_late_status, classify_in_spec.
  cbn [module_globals SHIFT_START HALF_DAY_START_TIME_NEW
       HALF_DAY_END_TIME_NEW LATE_UNIT_MINUTES].
  rewrite datetime_ge_combine, datetime_le_combine
    by (assumption || valid_const).
  rewrite datetime_sub_combine, minutes_nonpos, units_exact.
  reflexivity.
Qed.

(** C1. [calculate_late_status] equals the reference definition of
    classify_in: every time of day in [10:16, 13:30] gives the morning half
    day and no late unit; every time up to 09:15 is on time; every other
    time after 09:15 gives the ceiling of its distance from 09:15 in
    quarters of an hour, with the matching label and flag 0; 09:15, 09:16,
    09:30 and 09:31 give 0, 1, 1 and 2 units. *)
Theorem C1_classify_in_refines_reference (today : date) (t : time) :
  valid_time t ->
  calculate_late_status module_globals today None = classify_in_spec None
  /\ calculate_late_status module_globals today (Some t)
     = classify_in_spec (Some t)
  /\ (in_morning_window t ->
      calculate_late_status module_globals today (Some t)
      = (0, "Half Day Leave (Morning IN)", 1))
  /\ (time_le t (hm 9 15) ->
      calculate_late_status module_globals today (Some t)
      = (0, "On Time", 0))
  /\ (time_lt (hm 9 15) t -> ~ in_morning_window t ->
      exists u,
        calculate_late_status module_globals today (Some t)
        = (u, (format_int u ++ " x 15 Min Late")%string, 0)
        /\ 15 * minute_us * (u - 1)
           < time_us t - time_us (hm 9 15) <= 15 * minute_us * u)
  /\ calculate_late_status module_globals today (Some (hm 9 15))
     = (0, "On Time", 0)
  /\ calculate_late_status module_globals today (Some (hm 9 16))
     = (1, "1 x 15 Min Late", 0)
  /\ calculate_late_status module_globals today (Some (hm 9 30))
     = (1, "1 x 15 Min Late", 0)
  /\ calculate_late_status module_globals today (Some (hm 9 31))
     = (2, "2 x 15 Min Late", 0).
Proof.
  intros Ht.
  split; [reflexivity|].
  split; [now apply late_status_refines|].
  rewrite (late_status_refines today t Ht).
  unfold in_morning_window, time_le, time_lt, classify_in_spec.
  change (time_us (hm 10 16)) with 36960000000.
  change (time_us (hm 13 30)) with 48600000000.
  change (time_us (hm 9 15)) with 33300000000.
  repeat split.
  - intros [H1 H2].
    apply Z.leb_le in H1, H2. now rewrite H1, H2.
  - intros H.
    destruct ((36960000000 <=? time_us t) && (time_us t <=? 48600000000))
      eqn:E.
    + apply andb_true_iff in E. rewrite !Z.leb_le in E. lia.
    + assert (E' : (time_us t - 33300000000 <=? 0) = true)
        by (apply Z.leb_le; lia).
      now rewrite E'.
  - intros Hlate Hwin.
    destruct ((36960000000 <=? time_us t) && (time_us t <=? 48600000000))
      eqn:E.
    + apply andb_true_iff in E. rewrite !Z.leb_le in E. tauto.
    + assert (E' : (time_us t - 33300000000 <=? 0) = false)
        by (apply Z.leb_gt; lia).
      rewrite E'. eexists; split; [reflexivity|].
      apply ceil_div_spec. reflexivity.
  - now rewrite late_status_refines by valid_const.
  - now rewrite late_status_refines by valid_const.
  - now rewrite late_status_refines by valid_const.
  - now rewrite late_status_refines by valid_const.
Qed.

Lemma C1_witness :
  valid_time (hm 11 0)
  /\ calculate_late_status module_globals sample_today (Some (hm 11 0))
     = (0, "Half Day Leave (Morning IN)", 1).
Proof.
  split; [valid_const|].
  apply (C1_classify_in_refines_reference sample_today (hm 11 0));
    [valid_const|].
  unfold in_morning_window, time_le; cbn; lia.
Defined.

Lemma valid_module_globals : valid_globals module_globals.
Proof. repeat split; cbn; lia. Qed.

Lemma valid_overlapping_globals : valid_globals overlapping_globals.
Proof. repeat split; cbn; lia. Qed.

Lemma early_out_status_us (G : globals) (today : date) (t : time) :
  valid_globals G -> valid_time t ->
  calculate_early_out_status G today (Some t) = classify_out_us G t.
Proof.
  intros (_ & Hend & _ & _ & Hev & Hs & He) Ht.
  unfold calculate_early_out_status, classify_out_us.
  rewrite datetime_ge_combine, !datetime_le_combine by assumption.
  rewrite datetime_sub_combine, minutes_nonpos.
  reflexivity.
Qed.

Ltac us_constants :=
  change (time_us (hm 16 45)) with 60300000000 in *;
  change (time_us (hm 16 46)) with 60360000000 in *;
  change (time_us (hm 17 44)) with 63840000000 in *;
  change (time_us (hm 17 45)) with 63900000000 in *.

(** C2. Boundaries of [calculate_early_out_status]: 16:45 is the evening
    half day, 16:46 and 17:44 are one-hour leaves, 17:45 and every later
    time is on time or overtime; and the one-hour window is tested before
    the evening threshold, so a time before the shift end that lies in both
    (under any setting of the constants) is a one-hour leave. *)
Theorem C2_classify_out_boundaries (today : date) :
  calculate_early_out_status module_globals today (Some (hm 16 45))
  = (0, "Half Day Leave (Evening OUT)", 1)
  /\ calculate_early_out_status module_globals today (Some (hm 16 46))
     = (1, "1 Hour Leave", 0)
  /\ calculate_early_out_status module_globals today (Some (hm 17 44))
     = (1, "1 Hour Leave", 0)
  /\ calculate_early_out_status module_globals today (Some (hm 17 45))
     = (0, "On Time/Overtime", 0)
  /\ (forall t, valid_time t -> time_le (hm 17 45) t ->
      calculate_early_out_status module_globals today (Some t)
      = (0, "On Time/Overtime", 0))
  /\ (forall G t, valid_globals G -> valid_time t ->
      time_lt t (SHIFT_END G) ->
      time_le (ONE_HOUR_LEAVE_START_TIME G) t ->
      time_le t (ONE_HOUR_LEAVE_END_TIME G) ->
      time_le t (EVENING_HALF_DAY_TIME G) ->
      calculate_early_out_status G today (Some t) = (1, "1 Hour Leave", 0)).
Proof.
  repeat split;
    try (rewrite early_out_status_us
           by (apply valid_module_globals || valid_const); reflexivity).
  - intros t Ht Hle.
    rewrite early_out_status_us by (apply valid_module_globals || assumption).
    unfold classify_out_us, time_le in *. cbn [module_globals SHIFT_END].
    us_constants.
    assert (E : (63900000000 - time_us t <=? 0) = true)
      by (apply Z.leb_le; lia).
    now rewrite E.
  - intros G t HG Ht Hend Hs He _.
    rewrite early_out_status_us by assumption.
    unfold classify_out_us, time_le, time_lt in *.
    assert (E : (time_us (SHIFT_END G) - time_us t <=? 0) = false)
      by (apply Z.leb_gt; lia).
    apply Z.leb_le in Hs, He.
    now rewrite E, Hs, He.
Qed.

Lemma C2_witness :
  (valid_time (hm 18 10) /\ time_le (hm 17 45) (hm 18 10)
   /\ calculate_early_out_status module_globals sample_today
        (Some (hm 18 10)) = (0, "On Time/Overtime", 0))
  /\ (valid_globals overlapping_globals /\ valid_time (hm 16 50)
      /\ time_le (hm 16 50) (EVENING_HALF_DAY_TIME overlapping_globals)
      /\ calculate_early_out_status overlapping_globals sample_today
           (Some (hm 16 50)) = (1, "1 Hour Leave", 0)).
Proof.
  destruct (C2_classify_out_boundaries sample_today)
    as (_ & _ & _ & _ & Hlate & Hprio).
  split.
  - split; [valid_const|].
    split; [unfold time_le; cbn; lia|].
    apply Hlate; [valid_const | unfold time_le; cbn; lia].
  - split; [apply valid_overlapping_globals|].
    split; [valid_const|].
    split; [unfold time_le; cbn; lia|].
    apply Hprio;
      [ apply valid_overlapping_globals | valid_const
      | unfold time_lt; cbn; lia | unfold time_le; cbn; lia
      | unfold time_le; cbn; lia | unfold time_le; cbn; lia ].
Defined.

(** C6, as the code has it.  An out-time carrying seconds reaches the
    "Other Early Out" branch: 16:45:30 is after the 16:45 threshold and
    before the 16:46 window. *)
Lemma C6_other_early_out_reached :
  valid_time (mk_time 16 45 30 0)
  /\ calculate_early_out_status module_globals sample_today
       (Some (mk_time 16 45 30 0)) = (0, "Other Early Out", 0).
Proof. split; [valid_const | vm_compute; reflexivity]. Qed.

(** C6, amended.  [calculate_early_out_status] returns "Other Early Out"
    exactly for the out-times strictly between 16:45:00 and 16:46:00 or
    strictly between 17:44:00 and 17:45:00; for an out-time on a whole
    minute (seconds and microseconds zero), which is all the strict HH:MM
    parse produces, it never does. *)
Theorem C6_other_early_out_only_between_minutes (today : date) (t : time) :
  valid_time t ->
  (calculate_early_out_status module_globals today (Some t)
   = (0, "Other Early Out", 0)
   <-> (time_lt (hm 16 45) t /\ time_lt t (hm 16 46))
       \/ (time_lt (hm 17 44) t /\ time_lt t (hm 17 45)))
  /\ (second t = 0 -> microsecond t = 0 ->
      calculate_early_out_status module_globals today (Some t)
      <> (0, "Other Early Out", 0))
  /\ (forall s, strptime_HM s = Return t ->
      calculate_early_out_status module_globals today (Some t)
      <> (0, "Other Early Out", 0)).
Proof.
  intros Ht.
  rewrite early_out_status_us by (apply valid_module_globals || assumption).
  unfold classify_out_us, time_lt.
  cbn [module_globals SHIFT_END ONE_HOUR_LEAVE_START_TIME
       ONE_HOUR_LEAVE_END_TIME EVENING_HALF_DAY_TIME].
  us_constants.
  assert (Hiff :
    (if 63900000000 - time_us t <=? 0 then (0, "On Time/Overtime", 0)
     else if (60360000000 <=? time_us t) && (time_us t <=? 63840000000)
     then (1, "1 Hour Leave", 0)
     else if time_us t <=? 60300000000
     then (0, "Half Day Leave (Evening OUT)", 1)
     else (0, "Other Early Out", 0)) = (0, "Other Early Out", 0)
    <-> (60300000000 < time_us t /\ time_us t < 60360000000)
        \/ (63840000000 < time_us t /\ time_us t < 63900000000)).
  { destruct (Z.leb_spec (63900000000 - time_us t) 0);
      [split; [discriminate | lia]|].
    destruct (Z.leb_spec 60360000000 (time_us t));
      destruct (Z.leb_spec (time_us t) 63840000000); cbn [andb];
      try (split; [discriminate | lia]);
      destruct (Z.leb_spec (time_us t) 60300000000);
      try (split; [discriminate | lia]);
      split; intros _; (reflexivity || lia). }
  assert (Hwhole : second t = 0 -> microsecond t = 0 ->
                   ~ ((60300000000 < time_us t /\ time_us t < 60360000000)
                      \/ (63840000000 < time_us t
                          /\ time_us t < 63900000000))).
  { intros Hs Hus. destruct Ht as (Hh & Hm & _ & _).
    unfold time_us. rewrite Hs, Hus. lia. }
  split; [exact Hiff|]. split.
  - intros Hs Hus Hother. apply Hiff in Hother. now apply Hwhole.
  - intros s Hparse Hother. apply Hiff in Hother.
    destruct (strptime_HM_whole_minute s t Hparse) as (_ & Hs & Hus).
    now apply Hwhole.
Qed.

Lemma C6_witness :
  valid_time (mk_time 17 44 20 0)
  /\ calculate_early_out_status module_globals sample_today
       (Some (mk_time 17 44 20 0)) = (0, "Other Early Out", 0).
Proof.
  split; [valid_const|].
  apply (C6_other_early_out_only_between_minutes sample_today
           (mk_time 17 44 20 0)); [valid_const|].
  right. unfold time_lt; cbn; lia.
Defined.

(** C10. A cell such as "09:15:01" fails the strict HH:MM parse, so the
    time of day the permissive parser finds for it, seconds included, is
    what [to_time_safe] returns; and [calculate_late_status] gives every
    in-time strictly after 09:15:00 and outside [10:16, 13:30] at least one
    late unit, the ceiling of its distance from 09:15 in quarters of an
    hour: 09:15:01 is one unit late. *)
Theorem C10_sub_minute_lateness_rounds_up :
  (forall pd d t,
      pd "09:15:01" = Return (Timestamp d t) ->
      to_time_safe pd "09:15:01" = Return (Some t))
  /\ (forall today t,
        valid_time t -> time_lt (hm 9 15) t -> ~ in_morning_window t ->
        exists u,
          calculate_late_status module_globals today (Some t)
          = (u, (format_int u ++ " x 15 Min Late")%string, 0)
          /\ 1 <= u
          /\ 15 * minute_us * (u - 1)
             < time_us t - time_us (hm 9 15) <= 15 * minute_us * u)
  /\ (forall today,
        calculate_late_status module_globals today (Some (mk_time 9 15 1 0))
        = (1, "1 x 15 Min Late", 0)).
Proof.
  repeat split.
  - intros pd d t Hpd. unfold to_time_safe.
    change (strip "09:15:01") with "09:15:01".
    change (strptime_HM "09:15:01") with (@Raise time ValueError).
    cbn. now rewrite Hpd.
  - intros today t Ht Hlate Hwin.
    rewrite late_status_refines by assumption.
    unfold in_morning_window, time_le, time_lt, classify_in_spec in *.
    change (time_us (hm 10 16)) with 36960000000 in *.
    change (time_us (hm 13 30)) with 48600000000 in *.
    change (time_us (hm 9 15)) with 33300000000 in *.
    destruct ((36960000000 <=? time_us t) && (time_us t <=? 48600000000))
      eqn:E.
    + apply andb_true_iff in E. rewrite !Z.leb_le in E. tauto.
    + assert (E' : (time_us t - 33300000000 <=? 0) = false)
        by (apply Z.leb_gt; lia).
      rewrite E'. eexists; split; [reflexivity|].
      pose proof (ceil_div_spec (time_us t - 33300000000) (15 * minute_us)
                    eq_refl) as C.
      unfold minute_us in *. lia.
  - intros today. now rewrite late_status_refines by valid_const.
Qed.

Lemma C10_witness :
  to_time_safe pd_sample "09:15:01" = Return (Some (mk_time 9 15 1 0))
  /\ valid_time (mk_time 9 15 1 0)
  /\ exists u,
       calculate_late_status module_globals sample_today
         (Some (mk_time 9 15 1 0))
       = (u, (format_int u ++ " x 15 Min Late")%string, 0) /\ 1 <= u.
Proof.
  destruct C10_sub_minute_lateness_rounds_up as (Hparse & Hlate & _).
  split; [apply (Hparse pd_sample sample_today); reflexivity|].
  split; [valid_const|].
  destruct (Hlate sample_today (mk_time 9 15 1 0)) as (u & Hu & H1 & _);
    [ valid_const | unfold time_lt; cbn; lia
    | unfold in_morning_window, time_le; cbn; lia | ].
  exists u. split; assumption.
Defined.

(** ** Daily classification *)

(** C3. [get_day_classification] gives every row exactly one label of the
    ladder, chosen by the first rule that applies; a row with both half-day
    flags set is a full-day leave whatever its late units and early-out
    units are. *)
Theorem C3_day_classification_total_with_priority (row : CalculatedRow) :
  In (get_day_classification row) (ladder_labels row)
  /\ (is_morning_half_day row <> 0 -> is_evening_half_day row <> 0 ->
      get_day_classification row = "FULL Day Leave (Morn + Even Half)")
  /\ (is_morning_half_day row <> 0 -> is_evening_half_day row = 0 ->
      get_day_classification row = "Half Day Leave (Morning IN)")
  /\ (is_morning_half_day row = 0 -> is_evening_half_day row <> 0 ->
      get_day_classification row = "Half Day Leave (Evening OUT)")
  /\ (is_morning_half_day row = 0 -> is_evening_half_day row = 0 ->
      (early_out_units row = 1 ->
       get_day_classification row = "1 Hour Leave (Early OUT)")
      /\ (early_out_units row <> 1 -> late_units row > 0 ->
          get_day_classification row
          = (format_int (late_units row) ++ " x 15 Min Late")%string)
      /\ (early_out_units row <> 1 -> late_units row <= 0 ->
          (c_Time_In row = None \/ c_Time_Out row = None ->
           get_day_classification row = "Incomplete Record")
          /\ (c_Time_In row <> None -> c_Time_Out row <> None ->
              get_day_classification row = "On Time"))).
Proof.
  unfold get_day_classification, ladder_labels, truthy.
  destruct (Z.eqb_spec (is_morning_half_day row) 0) as [Hm|Hm];
    destruct (Z.eqb_spec (is_evening_half_day row) 0) as [He|He];
    cbn [negb andb].
  2-4: repeat split; intros; try tauto; cbn; tauto.
  destruct (Z.eqb_spec (early_out_units row) 1) as [Hu|Hu].
  { repeat split; intros; try tauto; cbn; tauto. }
  destruct (Z.gtb_spec (late_units row) 0) as [Hl|Hl].
  { repeat split; intros; try tauto; try lia; cbn; tauto. }
  destruct (c_Time_In row) as [tin|], (c_Time_Out row) as [tout|];
    cbn [is_none orb];
    repeat split; intros; try tauto; try lia; try congruence;
    try (cbn; tauto);
    match goal with
    | H : _ \/ _ |- _ => destruct H; congruence
    end.
Qed.

Lemma C3_witness :
  late_units flagged_row > 0 /\ early_out_units flagged_row = 1
  /\ get_day_classification flagged_row = "FULL Day Leave (Morn + Even Half)".
Proof.
  split; [reflexivity|]. split; [reflexivity|].
  apply (C3_day_classification_total_with_priority flagged_row);
    cbn; discriminate.
Defined.

(** ** Reports *)

Lemma fold_add_acc (l : list Z) (a : Z) :
  fold_left Z.add l a = a + fold_left Z.add l 0.
Proof.
  revert a. induction l as [|x l IH]; intros a; cbn; [lia|].
  rewrite (IH (a + x)), (IH x). lia.
Qed.

Lemma col_sum_cons {A} (f : A -> Z) (x : A) (l : list A) :
  col_sum f (x :: l) = f x + col_sum f l.
Proof. unfold col_sum; cbn. now rewrite fold_add_acc. Qed.

Lemma col_sum_add {A} (f g : A -> Z) (l : list A) :
  col_sum f l + col_sum g l = col_sum (fun r => f r + g r) l.
Proof.
  induction l as [|x l IH]; [reflexivity|].
  rewrite !col_sum_cons, <- IH. lia.
Qed.

Lemma col_sum_map {A B} (h : A -> B) (f : B -> Z) (l : list A) :
  col_sum f (map h l) = col_sum (fun r => f (h r)) l.
Proof.
  induction l as [|x l IH]; [reflexivity|].
  cbn [map]. now rewrite !col_sum_cons, IH.
Qed.

Lemma col_sum_ext {A} (f g : A -> Z) (l : list A) :
  (forall r, In r l -> f r = g r) -> col_sum f l = col_sum g l.
Proof.
  induction l as [|x l IH]; intros H; [reflexivity|].
  rewrite !col_sum_cons.
  rewrite (H x) by (left; reflexivity).
  rewrite IH by (intros r Hr; apply H; right; exact Hr).
  reflexivity.
Qed.

Lemma filter_map_comm {A B} (h : A -> B) (p : B -> bool) (l : list A) :
  filter p (map h l) = map h (filter (fun r => p (h r)) l).
Proof.
  induction l as [|x l IH]; [reflexivity|].
  cbn. destruct (p (h x)); cbn; now rewrite IH.
Qed.

Lemma insert_key_In (x k : string) (ks : list string) :
  In x (insert_key k ks) <-> x = k \/ In x ks.
Proof.
  induction ks as [|k' ks IH]; cbn; [intuition|].
  destruct (String.compare k k') eqn:E; cbn.
  - apply String.compare_eq_iff in E. subst. intuition.
  - intuition.
  - rewrite IH. intuition.
Qed.

Lemma group_keys_In (x : string) (col : list string) :
  In x (group_keys col) <-> In x col.
Proof.
  induction col as [|k col IH]; cbn; [tauto|].
  rewrite insert_key_In, IH. intuition.
Qed.

(** The flags the two rule functions return are 0 or 1, whatever the
    globals hold. *)
Lemma calculate_flags (G : globals) (today : date) (r : AttendanceRecord) :
  let c := calculate G today r in
  (is_morning_half_day c = 0 \/ is_morning_half_day c = 1)
  /\ (is_evening_half_day c = 0 \/ is_evening_half_day c = 1)
  /\ (early_out_units c = 0 \/ early_out_units c = 1)
  /\ c_Employee_Name c = rec_Employee_Name r.
Proof.
  unfold calculate, calculate_late_status, calculate_early_out_status.
  destruct (rec_Time_In r), (rec_Time_Out r);
    repeat match goal with
           | |- context [if ?b then _ else _] => destruct b
           end; cbn; auto.
Qed.

Lemma add_flags_spec (c : CalculatedRow) :
  (is_morning_half_day c = 0 \/ is_morning_half_day c = 1) ->
  (is_evening_half_day c = 0 \/ is_evening_half_day c = 1) ->
  is_half_day (add_flags c) = half_day_or c
  /\ is_one_hour_leave (add_flags c) = one_hour_not_half_day c.
Proof.
  unfold add_flags, one_hour_not_half_day, half_day_or.
  cbn [is_half_day is_one_hour_leave].
  intros [Hm|Hm] [He|He]; rewrite Hm, He; cbn;
    destruct (early_out_units c =? 1); auto.
Qed.

(** ** The date read from the clock *)

Lemma datetime_cmp_same_date (d1 d2 : date) (a b : time) :
  datetime_cmp (combine d1 a) (combine d1 b)
  = datetime_cmp (combine d2 a) (combine d2 b).
Proof.
  unfold datetime_cmp, datetime_fields, combine.
  cbn [dt_date dt_time tuple_cmp]. now rewrite !Z.compare_refl.
Qed.

Lemma late_status_any_date (G : globals) (d1 d2 : date) (x : option time) :
  calculate_late_status G d1 x = calculate_late_status G d2 x.
Proof.
  destruct x as [t|]; [|reflexivity].
  unfold calculate_late_status, datetime_ge, datetime_le.
  rewrite !datetime_sub_combine.
  rewrite (datetime_cmp_same_date d1 d2 t (HALF_DAY_START_TIME_NEW G)).
  rewrite (datetime_cmp_same_date d1 d2 t (HALF_DAY_END_TIME_NEW G)).
  reflexivity.
Qed.

Lemma early_out_status_any_date (G : globals) (d1 d2 : date)
  (x : option time) :
  calculate_early_out_status G d1 x = calculate_early_out_status G d2 x.
Proof.
  destruct x as [t|]; [|reflexivity].
  unfold calculate_early_out_status, datetime_ge, datetime_le.
  rewrite !datetime_sub_combine.
  rewrite (datetime_cmp_same_date d1 d2 t (ONE_HOUR_LEAVE_START_TIME G)).
  rewrite (datetime_cmp_same_date d1 d2 t (ONE_HOUR_LEAVE_END_TIME G)).
  rewrite (datetime_cmp_same_date d1 d2 t (EVENING_HALF_DAY_TIME G)).
  reflexivity.
Qed.

Lemma calculate_any_date (G : globals) (d1 d2 : date) (r : AttendanceRecord) :
  calculate G d1 r = calculate G d2 r.
Proof.
  unfold calculate.
  destruct (rec_Time_In r) as [a|], (rec_Time_Out r) as [b|];
    try rewrite (late_status_any_date G d1 d2 (Some a));
    try rewrite (early_out_status_any_date G d1 d2 (Some b));
    reflexivity.
Qed.

Lemma employee_report_any_date (G : globals) (d1 d2 : date)
  (df : list AttendanceRecord) (e : string) :
  generate_employee_report G d1 df e = generate_employee_report G d2 df e.
Proof.
  unfold generate_employee_report.
  destruct (filter _ df) as [|r l]; [reflexivity|].
  now rewrite (map_ext _ _ (calculate_any_date G d1 d2)).
Qed.

Lemma consolidated_report_any_date (G : globals) (d1 d2 : date)
  (df : list AttendanceRecord) :
  generate_consolidated_report G d1 df = generate_consolidated_report G d2 df.
Proof.
  unfold generate_consolidated_report.
  destruct df as [|r l]; [reflexivity|].
  now rewrite (map_ext _ _ (calculate_any_date G d1 d2)).
Qed.

Lemma employee_rows_nonempty (G : globals) (today : date)
  (df : list AttendanceRecord) (e : string) :
  employee_rows G today df e <> [] ->
  exists r l,
    filter (fun r => String.eqb (rec_Employee_Name r) e) df = r :: l.
Proof.
  unfold employee_rows.
  destruct (filter _ df) as [|r l]; [intros H; now elim H|].
  intros _. now exists r, l.
Qed.

Lemma group_rows (G : globals) (today : date) (df : list AttendanceRecord)
  (k : string) :
  group_of k (map add_flags (map (calculate G today) df))
  = map add_flags (employee_rows G today df k).
Proof.
  unfold group_of, employee_rows.
  rewrite filter_map_comm. f_equal. cbn [calc add_flags].
  rewrite filter_map_comm. f_equal.
  apply filter_ext. intros r.
  now destruct (calculate_flags G today r) as (_ & _ & _ & ->).
Qed.

Lemma employee_rows_flags (G : globals) (today : date)
  (df : list AttendanceRecord) (e : string) (c : CalculatedRow) :
  In c (employee_rows G today df e) ->
  (is_morning_half_day c = 0 \/ is_morning_half_day c = 1)
  /\ (is_evening_half_day c = 0 \/ is_evening_half_day c = 1).
Proof.
  unfold employee_rows. rewrite in_map_iff. intros (r & <- & _).
  destruct (calculate_flags G today r) as (Hm & He & _). now split.
Qed.

(** C4. The two reports count differently.  Per employee, the half-day
    total adds both flags of every record of the employee (a record with
    both flags adds 2) and the one-hour total counts every record with
    early_out_units = 1.  In the consolidated table each employee of the
    data has a row; its half-day total adds the OR of the two flags (the
    same record adds 1) and its one-hour total counts only records with
    early_out_units = 1 and no half-day flag, so a half-day record never
    also counts as a one-hour leave. *)
Theorem C4_report_modes_count_differently (G : globals) (today : date)
  (df : list AttendanceRecord) :
  (forall e, employee_rows G today df e <> [] ->
     exists details,
       generate_employee_report G today df e
       = Report
           [ ("Total 15 Min Late Units",
              col_sum late_units (employee_rows G today df e));
             ("Total Half Day Incidents",
              col_sum half_day_sum (employee_rows G today df e));
             ("Total 1 Hour Leaves",
              col_sum one_hour_any (employee_rows G today df e)) ]
           details)
  /\ (df <> [] ->
      exists summary calculated,
        generate_consolidated_report G today df
        = Consolidated summary calculated
        /\ (forall r, In r df ->
              exists s, In s summary
                        /\ s_Employee_Name s = rec_Employee_Name r)
        /\ (forall s, In s summary ->
              let rows := employee_rows G today df (s_Employee_Name s) in
              s_15_Min_Late_Units s = col_sum late_units rows
              /\ s_Half_Day_Incidents s = col_sum half_day_or rows
              /\ s_1_Hour_Leaves s = col_sum one_hour_not_half_day rows))
  /\ (forall c : CalculatedRow,
        is_morning_half_day c = 1 -> is_evening_half_day c = 1 ->
        half_day_sum c = 2 /\ half_day_or c = 1
        /\ is_half_day (add_flags c) = 1)
  /\ (forall c : CalculatedRow,
        is_half_day (add_flags c) = 1 -> is_one_hour_leave (add_flags c) = 0)
  /\ (generate_employee_report module_globals today [both_halves] "Bob"
      = Report
          [ ("Total 15 Min Late Units", 0); ("Total Half Day Incidents", 2);
            ("Total 1 Hour Leaves", 0) ]
          [ mk_detail "Bob" "1 M" (Some (hm 11 0)) (Some (hm 16 0))
              "FULL Day Leave (Morn + Even Half)" ]
      /\ exists calculated,
          generate_consolidated_report module_globals today [both_halves]
          = Consolidated [mk_summary "Bob" 0 1 0] calculated)
  /\ (generate_employee_report module_globals today [half_and_hour] "Bob"
      = Report
          [ ("Total 15 Min Late Units", 0); ("Total Half Day Incidents", 1);
            ("Total 1 Hour Leaves", 1) ]
          [ mk_detail "Bob" "2 T" (Some (hm 11 0)) (Some (hm 17 0))
              "Half Day Leave (Morning IN)" ]
      /\ exists calculated,
          generate_consolidated_report module_globals today [half_and_hour]
          = Consolidated [mk_summary "Bob" 0 1 0] calculated).
Proof.
  split; [|split; [|split; [|split; [|split]]]].
  - intros e Hne.
    destruct (employee_rows_nonempty G today df e Hne) as (r & l & E).
    unfold generate_employee_report, employee_rows. rewrite E.
    eexists. f_equal.
    rewrite col_sum_add. reflexivity.
  - intros Hne. destruct df as [|r0 df0]; [now elim Hne|].
    set (df := r0 :: df0) in *.
    unfold generate_consolidated_report. fold df.
    do 2 eexists. split; [reflexivity|]. split.
    + intros r Hr.
      eexists. split.
      * apply in_map_iff. exists (rec_Employee_Name r). split; [reflexivity|].
        apply group_keys_In. rewrite !map_map. apply in_map_iff.
        exists r. split; [|exact Hr].
        cbn [calc add_flags].
        now destruct (calculate_flags G today r) as (_ & _ & _ & ->).
      * reflexivity.
    + intros s Hs. apply in_map_iff in Hs. destruct Hs as (k & <- & _).
      cbn [s_Employee_Name s_15_Min_Late_Units s_Half_Day_Incidents
           s_1_Hour_Leaves].
      rewrite group_rows, !col_sum_map.
      repeat split.
      * apply col_sum_ext. intros c Hc.
        destruct (employee_rows_flags G today df k c Hc) as (Hm & He).
        now destruct (add_flags_spec c Hm He).
      * apply col_sum_ext. intros c Hc.
        destruct (employee_rows_flags G today df k c Hc) as (Hm & He).
        now destruct (add_flags_spec c Hm He).
  - intros c Hm He. unfold half_day_sum, half_day_or, add_flags.
    cbn [is_half_day]. rewrite Hm, He. repeat split.
  - intros c. unfold add_flags. cbn [is_half_day is_one_hour_leave].
    destruct ((is_morning_half_day c =? 1) || (is_evening_half_day c =? 1));
      [reflexivity | discriminate].
  - rewrite (employee_report_any_date module_globals today sample_today).
    rewrite (consolidated_report_any_date module_globals today sample_today).
    split; [vm_compute; reflexivity | eexists; vm_compute; reflexivity].
  - rewrite (employee_report_any_date module_globals today sample_today).
    rewrite (consolidated_report_any_date module_globals today sample_today).
    split; [vm_compute; reflexivity | eexists; vm_compute; reflexivity].
Qed.

Lemma C4_witness :
  employee_rows module_globals sample_today [both_halves; half_and_hour] "Bob"
  <> []
  /\ exists details,
      generate_employee_report module_globals sample_today
        [both_halves; half_and_hour] "Bob"
      = Report
          [ ("Total 15 Min Late Units", 0); ("Total Half Day Incidents", 3);
            ("Total 1 Hour Leaves", 1) ]
          details.
Proof.
  assert (Hne : employee_rows module_globals sample_today
                  [both_halves; half_and_hour] "Bob" <> [])
    by (vm_compute; discriminate).
  split; [exact Hne|].
  destruct (C4_report_modes_count_differently module_globals sample_today
              [both_halves; half_and_hour]) as (Hemp & _).
  destruct (Hemp "Bob" Hne) as (details & E).
  exists details. rewrite E. vm_compute. reflexivity.
Defined.

(** ** TimeParser *)

Lemma strptime_HM_raises_only_ValueError (s : string) :
  (exists t, strptime_HM s = Return t) \/ strptime_HM s = Raise ValueError.
Proof.
  unfold strptime_HM.
  destruct (first_match (match_H s)) as [[[h m] [|c rest]]|]; eauto.
Qed.

Lemma blank_literal_test (s : string) :
  String.eqb (strip s) "" || str_in (strip s) ["00:00"; "nan"; "NaT"] = true
  <-> is_blank_literal s.
Proof.
  unfold is_blank_literal, str_in. cbn [existsb].
  rewrite !orb_true_iff, !String.eqb_eq. intuition discriminate.
Qed.

Lemma not_blank_literal_test (s : string) :
  ~ is_blank_literal s ->
  String.eqb (strip s) "" || str_in (strip s) ["00:00"; "nan"; "NaT"] = false.
Proof.
  intros H. apply not_true_is_false. now rewrite blank_literal_test.
Qed.

(** C7. [to_time_safe] returns for every cell and every behaviour of the
    permissive parser, never raising: absent for a cell that is empty
    after trimming or is one of the literals "00:00", "nan", "NaT" (exact
    case: "NAN" is parsed like any other text); the time of the strict
    HH:MM parse when that succeeds; else the time of day of the permissive
    parse when it yields a timestamp; and absent when it yields NaT or
    raises. *)
Theorem C7_to_time_safe_total (pd : string -> outcome pd_scalar) (s : string) :
  (exists r, to_time_safe pd s = Return r)
  /\ (is_blank_literal s -> to_time_safe pd s = Return None)
  /\ (~ is_blank_literal s ->
      (forall t, strptime_HM (strip s) = Return t ->
                 to_time_safe pd s = Return (Some t))
      /\ (strptime_HM (strip s) = Raise ValueError ->
          (forall d t, pd (strip s) = Return (Timestamp d t) ->
                       to_time_safe pd s = Return (Some t))
          /\ (pd (strip s) = Return NaT -> to_time_safe pd s = Return None)
          /\ (forall e, pd (strip s) = Raise e ->
                        to_time_safe pd s = Return None)))
  /\ (forall d t, pd "NAN" = Return (Timestamp d t) ->
                  to_time_safe pd "NAN" = Return (Some t)).
Proof.
  split; [|split; [|split]].
  - unfold to_time_safe.
    destruct (_ || _); [eauto|].
    destruct (strptime_HM_raises_only_ValueError (strip s)) as [[t E]|E];
      rewrite E; [eauto|].
    destruct (pd (strip s)) as [[|d t]|e]; eauto.
  - intros H. unfold to_time_safe.
    apply blank_literal_test in H. now rewrite H.
  - intros H. unfold to_time_safe.
    rewrite (not_blank_literal_test s H).
    split; [intros t E; now rewrite E|].
    intros E. rewrite E.
    repeat split; intros;
      match goal with H : pd _ = _ |- _ => now rewrite H end.
  - intros d t E. unfold to_time_safe.
    change (strip "NAN") with "NAN".
    change (strptime_HM "NAN") with (@Raise time ValueError).
    cbn. now rewrite E.
Qed.

Lemma C7_witness :
  is_blank_literal "  nan " /\ to_time_safe pd_sample "  nan " = Return None.
Proof.
  assert (H : is_blank_literal "  nan ") by (right; right; left; reflexivity).
  split; [exact H|].
  destruct (C7_to_time_safe_total pd_sample "  nan ") as (_ & Hblank & _).
  exact (Hblank H).
Defined.

(** ** BlockExtractor *)

Lemma mask_index_none (p : string -> bool) (col : list string) (i : nat) :
  (forall c, In c col -> p c = false) -> mask_index p col i = [].
Proof.
  revert i. induction col as [|c col IH]; intros i H; [reflexivity|].
  cbn. rewrite (H c) by (left; reflexivity).
  apply IH. intros c' Hc'. apply H. now right.
Qed.

Lemma reverse_involutive (s : string) : reverse (reverse s) = s.
Proof.
  unfold reverse.
  now rewrite list_ascii_of_string_of_list_ascii, rev_involutive,
    string_of_list_ascii_of_string.
Qed.

Lemma lstrip_idempotent (s : string) : lstrip (lstrip s) = lstrip s.
Proof.
  induction s as [|c s IH]; [reflexivity|].
  cbn. destruct (isspace c) eqn:E; [exact IH|].
  cbn. now rewrite E.
Qed.

(** A stripped string does not end in white space. *)
Lemma strip_no_trailing_space (s : string) :
  lstrip (reverse (strip s)) = reverse (strip s).
Proof.
  unfold strip, rstrip.
  now rewrite reverse_involutive, lstrip_idempotent.
Qed.

Lemma contains_Days_stripped (s : string) :
  strip s <> "Days" -> contains_Days (strip s) = false.
Proof.
  intros H. unfold contains_Days.
  apply orb_false_iff. split; [now apply String.eqb_neq|].
  apply String.eqb_neq. intros E.
  pose proof (strip_no_trailing_space s) as Hfix. rewrite E in Hfix.
  vm_compute in Hfix. discriminate.
Qed.

(** C5, as the code has it.  On a grid without a "Days" row the position
    of the header is NaN, not None: the [is None] guard does not fire, the
    header read raises, and [restructure_attendance_data] returns the empty
    frame after reporting a severe structural error through [st.error]
    (on a frame without columns the report is for the KeyError of
    [df_raw[0]]).  The specification asks for the empty result without
    an error report. *)
Theorem C5_missing_days_row_is_reported_as_error
  (pd : string -> outcome pd_scalar) (df : RawGrid) :
  no_Days_row df ->
  restructure_attendance_data pd df
  = (Return [],
     [SevereStructuralError
        (match ncols df with O => KeyError | S _ => ValueError end)]).
Proof.
  intros H. unfold restructure_attendance_data, restructure_try, column0.
  destruct (ncols df); [reflexivity|].
  cbn [bind].
  rewrite (mask_index_none contains_Days); [reflexivity|].
  intros c Hc. apply in_map_iff in Hc. destruct Hc as (x & <- & Hx).
  apply in_map_iff in Hx. destruct Hx as (row & <- & Hrow).
  apply contains_Days_stripped. now apply H.
Qed.

Lemma C5_witness :
  no_Days_row headerless_grid
  /\ rectangular headerless_grid = true
  /\ restructure_attendance_data pd_sample headerless_grid
     = (Return [], [SevereStructuralError ValueError]).
Proof.
  assert (H : no_Days_row headerless_grid).
  { intros row Hrow. cbn in Hrow.
    repeat (destruct Hrow as [<-|Hrow]; [vm_compute; discriminate|]).
    contradiction. }
  split; [exact H|]. split; [reflexivity|].
  exact (C5_missing_days_row_is_reported_as_error pd_sample headerless_grid H).
Defined.

Lemma lstrip_empty_iff (s : string) : lstrip s = "" <-> all_space s = true.
Proof.
  unfold all_space. induction s as [|c s IH]; cbn; [tauto|].
  destruct (isspace c); cbn; [exact IH|].
  split; discriminate.
Qed.

Lemma all_space_lstrip (s : string) : all_space (lstrip s) = all_space s.
Proof.
  unfold all_space. induction s as [|c s IH]; [reflexivity|].
  cbn. destruct (isspace c) eqn:E; cbn; [exact IH|].
  now rewrite E.
Qed.

Lemma all_space_reverse (s : string) : all_space (reverse s) = all_space s.
Proof.
  unfold all_space, reverse. rewrite list_ascii_of_string_of_list_ascii.
  apply eq_true_iff_eq. rewrite !forallb_forall.
  split; intros H c Hc; apply H; [now apply in_rev in Hc | now apply in_rev].
Qed.

Lemma reverse_empty_iff (s : string) : reverse s = "" <-> s = "".
Proof.
  split; intros H; [|now subst].
  rewrite <- (reverse_involutive s), H. reflexivity.
Qed.

Lemma strip_empty_iff (s : string) : strip s = "" <-> all_space s = true.
Proof.
  unfold strip, rstrip.
  rewrite reverse_empty_iff, lstrip_empty_iff, all_space_reverse,
    all_space_lstrip.
  reflexivity.
Qed.

Lemma strip_nonempty_iff (s : string) :
  strip s <> "" <-> has_visible_char s.
Proof.
  rewrite strip_empty_iff. unfold has_visible_char, all_space.
  split.
  - intros H.
    induction (list_ascii_of_string s) as [|c l IH]; [now elim H|].
    cbn in H. destruct (isspace c) eqn:E.
    + destruct (IH H) as (c' & Hin & Hc'). exists c'. split; [now right|].
      exact Hc'.
    + exists c. split; [now left | exact E].
  - intros (c & Hin & Hc) H.
    rewrite forallb_forall in H. rewrite (H c Hin) in Hc. discriminate.
Qed.

Lemma series_apply_In {A B} (f : A -> outcome B) (l : list A) (ys : list B) :
  series_apply f l = Return ys ->
  forall y, In y ys -> exists x, In x l /\ f x = Return y.
Proof.
  revert ys. induction l as [|x l IH]; intros ys H y Hy.
  - cbn in H. injection H as <-. contradiction.
  - cbn in H. destruct (f x) as [b|e] eqn:Ef; [|discriminate].
    cbn in H. destruct (series_apply f l) as [bs|e]; [|discriminate].
    cbn in H. injection H as <-.
    destruct Hy as [<-|Hy].
    + exists x. split; [now left | exact Ef].
    + destruct (IH bs eq_refl y Hy) as (x' & Hx' & E').
      exists x'. split; [now right | exact E'].
Qed.

Lemma make_temp_df_names (pd : string -> outcome pd_scalar)
  (e : string) (dh st it ot : list string) (temp : list StructuredRow) :
  make_temp_df pd e dh st it ot = Return temp ->
  forall row, In row temp -> Employee_Name row = name_of_cell e.
Proof.
  unfold make_temp_df. intros H row Hrow.
  destruct (series_apply_In _ _ _ H row Hrow) as ([[[d s] i] o] & _ & E).
  destruct (to_time_safe pd i) as [tin|]; [|discriminate].
  destruct (to_time_safe pd o) as [tout|]; [|discriminate].
  cbn in E. injection E as <-. reflexivity.
Qed.

Lemma mask_index_In (p : string -> bool) (col : list string) (k i : nat) :
  In i (mask_index p col k) ->
  exists c, (k <= i)%nat /\ nth_error col (i - k) = Some c /\ p c = true.
Proof.
  revert k. induction col as [|c col IH]; intros k H; [contradiction|].
  cbn in H.
  assert (Hrest : In i (mask_index p col (S k)) ->
                  exists c0, (k <= i)%nat
                             /\ nth_error (c :: col) (i - k) = Some c0
                             /\ p c0 = true).
  { intros H'. destruct (IH _ H') as (c0 & Hle & Hn & Hp).
    exists c0. split; [lia|]. split; [|exact Hp].
    replace (i - k)%nat with (S (i - S k)) by lia. exact Hn. }
  destruct (p c) eqn:E; [|now apply Hrest].
  destruct H as [<-|H]; [|now apply Hrest].
  exists c. split; [lia|]. split; [|exact E].
  now rewrite Nat.sub_diag.
Qed.

Lemma block_loop_names (pd : string -> outcome pd_scalar) (df : RawGrid)
  (dh : list string) (emp_rows : list nat) :
  (forall i, In i emp_rows -> anchor_row df i) ->
  forall final_data result,
    block_loop pd df dh emp_rows final_data = Return result ->
    (forall temp row, In temp final_data -> In row temp ->
                      named_by_anchor df (Employee_Name row)) ->
    forall temp row, In temp result -> In row temp ->
                     named_by_anchor df (Employee_Name row).
Proof.
  induction emp_rows as [|i rest IH]; intros Hanchor final_data result H Hinv.
  - cbn in H. injection H as <-. exact Hinv.
  - assert (Hrest : forall j, In j rest -> anchor_row df j)
      by (intros j Hj; apply Hanchor; now right).
    cbn [block_loop] in H.
    destruct (iloc_cell df i 3) as [employee_str|e] eqn:Ecell;
      [|discriminate].
    cbn [bind] in H.
    destruct (String.eqb (strip employee_str) "") eqn:Eempty;
      [now apply (IH Hrest final_data)|].
    destruct (read_block df i) as [[[st it] ot]|[]];
      try discriminate; try (now apply (IH Hrest final_data)).
    destruct (make_temp_df pd employee_str dh st it ot) as [temp_df|e]
      eqn:Etemp; [|discriminate].
    cbn [bind] in H.
    destruct temp_df as [|x l]; [now apply (IH Hrest final_data)|].
    apply (IH Hrest _ _ H).
    intros temp row Htemp Hrow. apply in_app_or in Htemp.
    destruct Htemp as [Htemp|[<-|[]]]; [now apply (Hinv temp)|].
    exists i, employee_str.
    split; [apply Hanchor; now left|].
    split; [exact Ecell|].
    split; [now apply String.eqb_neq|].
    rewrite (make_temp_df_names pd _ _ _ _ _ _ Etemp row Hrow).
    split; [reflexivity|]. apply strip_nonempty_iff.
Qed.

Lemma emp_rows_are_anchors (df : RawGrid) (i : nat) :
  In i (mask_index contains_Employee
          (map strip (map (fun r => nth 0 r EmptyString) df)) 0) ->
  anchor_row df i.
Proof.
  intros H. destruct (mask_index_In _ _ _ _ H) as (c & _ & Hn & Hp).
  rewrite Nat.sub_0_r, map_map, nth_error_map in Hn.
  destruct (nth_error df i) as [row|] eqn:E; [|discriminate].
  cbn in Hn. injection Hn as <-.
  exists row. now split.
Qed.

Lemma restructure_names (pd : string -> outcome pd_scalar) (df_raw : RawGrid)
  (out : list AttendanceRecord) (r : AttendanceRecord) :
  fst (restructure_attendance_data pd df_raw) = Return out ->
  In r out -> named_by_anchor df_raw (rec_Employee_Name r).
Proof.
  unfold restructure_attendance_data.
  destruct (restructure_try pd df_raw) as [df|e] eqn:E; cbn [fst].
  2:{ destruct (is_Exception e); cbn [fst]; intros H;
        [injection H as <-; contradiction | discriminate]. }
  intros H Hr. injection H as ->.
  unfold restructure_try, column0 in E.
  destruct (ncols df_raw); [discriminate|]. cbn [bind] in E.
  destruct (is_None _); [injection E as <-; contradiction|].
  destruct (iloc_row_from df_raw _ TIME_START_COL_INDEX) as [dh|e];
    [|discriminate].
  cbn [bind] in E.
  destruct (block_loop pd df_raw (map strip dh) _ []) as [final_data|e]
    eqn:Eloop; [|discriminate].
  cbn [bind] in E.
  destruct final_data as [|t0 ts]; [injection E as <-; contradiction|].
  injection E as <-.
  apply in_map_iff in Hr. destruct Hr as (row & <- & Hrow).
  apply filter_In in Hrow. destruct Hrow as (Hrow & _).
  apply filter_In in Hrow. destruct Hrow as (Hrow & _).
  change (In row (List.concat (t0 :: ts))) in Hrow.
  apply in_concat in Hrow. destruct Hrow as (temp & Htemp & Hrow).
  cbn [project rec_Employee_Name].
  apply (block_loop_names pd df_raw (map strip dh) _
           (emp_rows_are_anchors df_raw) [] _ Eloop) with (temp := temp);
    [intros ? ? [] | exact Htemp | exact Hrow].
Qed.

(** C8, as the code has it.  The guard looks at the whole name cell, the
    name is its last ':'-separated segment: the anchor cell "Name:" passes
    the guard and its records carry the empty name. *)
Lemma C8_record_with_empty_name :
  rectangular sample_grid = true
  /\ exists out r,
       fst (restructure_attendance_data pd_sample sample_grid) = Return out
       /\ In r out /\ rec_Employee_Name r = "".
Proof.
  split; [reflexivity|].
  eexists. eexists. split; [vm_compute; reflexivity|].
  split; [right; right; left; reflexivity | reflexivity].
Qed.

(** C8, amended.  Every record [restructure_attendance_data] emits carries
    as name the trimmed last ':'-separated segment of the column-3 cell of
    an employee anchor row, and that cell is not empty after trimming; the
    name is non-empty exactly when that last segment has a character that
    is not white space. *)
Theorem C8_name_is_trailing_segment_of_nonempty_cell
  (pd : string -> outcome pd_scalar) (df_raw : RawGrid)
  (out : list AttendanceRecord) (r : AttendanceRecord) :
  fst (restructure_attendance_data pd df_raw) = Return out ->
  In r out ->
  exists i cell,
    anchor_row df_raw i
    /\ iloc_cell df_raw i 3 = Return cell
    /\ strip cell <> ""
    /\ rec_Employee_Name r = name_of_cell cell
    /\ (rec_Employee_Name r <> ""
        <-> has_visible_char (last_item (split ":"%char cell))).
Proof. intros H Hr. exact (restructure_names pd df_raw out r H Hr). Qed.

Lemma C8_witness :
  fst (restructure_attendance_data pd_sample sample_grid)
  = Return sample_records
  /\ In (mk_record "Bob" "3 W" (Some (hm 10 20)) (Some (hm 16 0)))
        sample_records
  /\ exists i cell,
       iloc_cell sample_grid i 3 = Return cell
       /\ strip cell <> ""
       /\ "Bob" = name_of_cell cell.
Proof.
  assert (H1 : fst (restructure_attendance_data pd_sample sample_grid)
               = Return sample_records) by (vm_compute; reflexivity).
  assert (H2 : In (mk_record "Bob" "3 W" (Some (hm 10 20)) (Some (hm 16 0)))
                  sample_records) by (right; left; reflexivity).
  split; [exact H1|]. split; [exact H2|].
  destruct (C8_name_is_trailing_segment_of_nonempty_cell pd_sample
              sample_grid sample_records _ H1 H2)
    as (i & cell & _ & Hc & Hne & Hname & _).
  exists i, cell. repeat split; assumption.
Defined.

(** * Further properties of the rule engine *)

Lemma time_us_range (t : time) :
  valid_time t -> 0 <= time_us t < 86400000000.
Proof. unfold valid_time, time_us. lia. Qed.

Lemma ceil_div_mono (a a' b : Z) :
  0 < b -> a <= a' -> ceil_div a b <= ceil_div a' b.
Proof.
  intros Hb H. unfold ceil_div. apply Z.div_le_mono; lia.
Qed.

Ltac in_constants :=
  change (time_us (hm 10 16)) with 36960000000 in *;
  change (time_us (hm 13 30)) with 48600000000 in *;
  change (time_us (hm 9 15)) with 33300000000 in *.

(** X1. Ranges of [calculate_late_status]: the half-day flag is set exactly
    for in-times in [10:16, 13:30] and then no late unit is counted; late
    units are 0 exactly for in-times up to 09:15 or in the window, between
    1 and 5 from 09:15 to 10:16, between 18 and 59 after 13:30, and never
    more than 59. *)
Theorem late_status_ranges (today : date) (t : time) (u : Z) (label : string)
  (f : Z) :
  valid_time t ->
  calculate_late_status module_globals today (Some t) = (u, label, f) ->
  (f = 1 <-> in_morning_window t)
  /\ (f = 0 \/ f = 1)
  /\ (f = 1 -> u = 0)
  /\ 0 <= u <= 59
  /\ (u = 0 <-> time_le t (hm 9 15) \/ in_morning_window t)
  /\ (time_lt (hm 9 15) t -> time_lt t (hm 10 16) -> 1 <= u <= 5)
  /\ (time_lt (hm 13 30) t -> 18 <= u <= 59).
Proof.
  intros Ht. rewrite late_status_refines by assumption.
  pose proof (time_us_range t Ht) as Hr.
  unfold classify_in_spec, in_morning_window, time_le, time_lt.
  in_constants.
  destruct (Z.leb_spec 36960000000 (time_us t));
    destruct (Z.leb_spec (time_us t) 48600000000); cbn [andb];
    try (intros E; injection E as <- <- <-; repeat split; intros; lia).
  all: destruct (Z.leb_spec (time_us t - 33300000000) 0);
    try (intros E; injection E as <- <- <-; repeat split; intros; lia).
  all: pose proof (ceil_div_spec (time_us t - 33300000000) (15 * minute_us)
                     eq_refl) as C;
    set (c := ceil_div (time_us t - 33300000000) (15 * minute_us)) in *;
    clearbody c; unfold minute_us in C;
    intros E; apply (f_equal (fun p => (fst (fst p), snd p))) in E;
    cbn [fst snd] in E; injection E as <- <-;
    repeat split; intros; lia.
Qed.

Lemma late_status_ranges_witness :
  valid_time (mk_time 13 30 0 1)
  /\ calculate_late_status module_globals sample_today
       (Some (mk_time 13 30 0 1)) = (18, "18 x 15 Min Late", 0)
  /\ 18 <= 18 <= 59.
Proof.
  assert (Hv : valid_time (mk_time 13 30 0 1)) by valid_const.
  assert (E : calculate_late_status module_globals sample_today
                (Some (mk_time 13 30 0 1)) = (18, "18 x 15 Min Late", 0))
    by (vm_compute; reflexivity).
  split; [exact Hv|]. split; [exact E|].
  apply (late_status_ranges sample_today _ _ _ _ Hv E).
  unfold time_lt; cbn; lia.
Defined.

(** X2. Ranges of [calculate_early_out_status]: the unit is 1 exactly for
    out-times in [16:46, 17:44], the half-day flag is 1 exactly for
    out-times up to 16:45, never both, and the label is "On Time/Overtime"
    exactly from 17:45 on. *)
Theorem early_out_status_ranges (today : date) (t : time) (u : Z)
  (label : string) (f : Z) :
  valid_time t ->
  calculate_early_out_status module_globals today (Some t) = (u, label, f) ->
  (u = 1 <-> time_le (hm 16 46) t /\ time_le t (hm 17 44))
  /\ (f = 1 <-> time_le t (hm 16 45))
  /\ (u = 0 \/ u = 1) /\ (f = 0 \/ f = 1)
  /\ ~ (u = 1 /\ f = 1)
  /\ (label = "On Time/Overtime" <-> time_le (hm 17 45) t).
Proof.
  intros Ht.
  rewrite early_out_status_us by (apply valid_module_globals || assumption).
  unfold classify_out_us, time_le.
  cbn [module_globals SHIFT_END ONE_HOUR_LEAVE_START_TIME
       ONE_HOUR_LEAVE_END_TIME EVENING_HALF_DAY_TIME].
  us_constants.
  destruct (Z.leb_spec (63900000000 - time_us t) 0);
    [intros E; injection E as <- <- <-; repeat split; intros;
       (lia || reflexivity || discriminate)|].
  destruct (Z.leb_spec 60360000000 (time_us t));
    destruct (Z.leb_spec (time_us t) 63840000000); cbn [andb];
    try (intros E; injection E as <- <- <-; repeat split; intros;
         (lia || reflexivity || discriminate)).
  all: destruct (Z.leb_spec (time_us t) 60300000000);
    intros E; injection E as <- <- <-; repeat split; intros;
    (lia || reflexivity || discriminate).
Qed.

Lemma early_out_status_ranges_witness :
  valid_time (hm 17 0)
  /\ calculate_early_out_status module_globals sample_today (Some (hm 17 0))
     = (1, "1 Hour Leave", 0)
  /\ time_le (hm 16 46) (hm 17 0) /\ time_le (hm 17 0) (hm 17 44).
Proof.
  assert (Hv : valid_time (hm 17 0)) by valid_const.
  assert (E : calculate_early_out_status module_globals sample_today
                (Some (hm 17 0)) = (1, "1 Hour Leave", 0))
    by (vm_compute; reflexivity).
  split; [exact Hv|]. split; [exact E|].
  apply (early_out_status_ranges sample_today _ _ _ _ Hv E). reflexivity.
Defined.

(** X3. Outside the half-day window late units grow with the in-time: of
    two in-times that are not in [10:16, 13:30], the later one never has
    fewer units (inside the window the count drops to 0). *)
Theorem late_units_monotone_outside_window (today : date) (t1 t2 : time) :
  valid_time t1 -> valid_time t2 ->
  ~ in_morning_window t1 -> ~ in_morning_window t2 ->
  time_le t1 t2 ->
  fst (fst (calculate_late_status module_globals today (Some t1)))
  <= fst (fst (calculate_late_status module_globals today (Some t2))).
Proof.
  intros H1 H2 W1 W2 Hle.
  rewrite !late_status_refines by assumption.
  unfold classify_in_spec, in_morning_window, time_le in *.
  in_constants.
  destruct ((36960000000 <=? time_us t1) && (time_us t1 <=? 48600000000))
    eqn:E1;
    [apply andb_true_iff in E1; rewrite !Z.leb_le in E1; tauto|].
  destruct ((36960000000 <=? time_us t2) && (time_us t2 <=? 48600000000))
    eqn:E2;
    [apply andb_true_iff in E2; rewrite !Z.leb_le in E2; tauto|].
  pose proof (ceil_div_spec (time_us t2 - 33300000000) (15 * minute_us)
                eq_refl) as C2.
  pose proof (ceil_div_mono (time_us t1 - 33300000000)
                (time_us t2 - 33300000000) (15 * minute_us) eq_refl
                ltac:(lia)) as M.
  destruct (Z.leb_spec (time_us t1 - 33300000000) 0);
    destruct (Z.leb_spec (time_us t2 - 33300000000) 0); cbn [fst];
    unfold minute_us in *; lia.
Qed.

Lemma late_units_monotone_outside_window_witness :
  fst (fst (calculate_late_status module_globals sample_today
              (Some (hm 10 15))))
  <= fst (fst (calculate_late_status module_globals sample_today
                 (Some (hm 13 31)))).
Proof.
  apply late_units_monotone_outside_window;
    try valid_const;
    unfold in_morning_window, time_le; cbn; lia.
Defined.

Lemma length_append (a b : string) :
  String.length (a ++ b) = (String.length a + String.length b)%nat.
Proof. induction a as [|c a IH]; cbn; [reflexivity | now rewrite IH]. Qed.

Lemma late_label_long (n : Z) :
  (14 <= String.length (format_int n ++ " x 15 Min Late"))%nat.
Proof. rewrite length_append. cbn. lia. Qed.

Lemma calculate_fields (today : date) (r : AttendanceRecord) :
  valid_record r ->
  let c := calculate module_globals today r in
  c_Time_In c = rec_Time_In r /\ c_Time_Out c = rec_Time_Out r
  /\ truthy (is_morning_half_day c)
     = match rec_Time_In r with
       | Some t => morning_window_b t
       | None => false
       end
  /\ truthy (is_evening_half_day c)
     = match rec_Time_Out r with
       | Some t => negb (one_hour_window_b t) && evening_half_b t
                   && negb (time_us (hm 17 45) - time_us t <=? 0)
       | None => false
       end
  /\ (early_out_units c =? 1)
     = match rec_Time_Out r with
       | Some t => one_hour_window_b t
                   && negb (time_us (hm 17 45) - time_us t <=? 0)
       | None => false
       end
  /\ late_units c
     = match rec_Time_In r with
       | Some t =>
           if morning_window_b t then 0
           else if time_us t <=? time_us (hm 9 15) then 0
           else ceil_div (time_us t - time_us (hm 9 15)) (15 * minute_us)
       | None => 0
       end.
Proof.
  intros (Hin & Hout). unfold calculate.
  destruct (rec_Time_In r) as [a|], (rec_Time_Out r) as [b|];
    cbn [valid_opt] in Hin, Hout;
    try rewrite (late_status_refines today a Hin);
    try rewrite (early_out_status_us module_globals today b
                   valid_module_globals Hout);
    unfold classify_in_spec, classify_out_us, morning_window_b,
      one_hour_window_b, evening_half_b;
    cbn [module_globals SHIFT_END ONE_HOUR_LEAVE_START_TIME
         ONE_HOUR_LEAVE_END_TIME EVENING_HALF_DAY_TIME];
    in_constants; us_constants;
    repeat match goal with
           | |- context [(?x <=? ?y)] =>
               destruct (Z.leb_spec x y); cbn [andb negb]
           end;
    cbn; repeat split; try reflexivity; lia.
Qed.

Lemma late_label_not_on_time (n : Z) :
  (format_int n ++ " x 15 Min Late")%string <> "On Time".
Proof.
  intros E. pose proof (late_label_long n) as L. rewrite E in L.
  cbn in L. lia.
Qed.

Lemma day_label_refines (today : date) (r : AttendanceRecord) :
  valid_record r ->
  get_day_classification (calculate module_globals today r)
  = day_label_of_times (rec_Time_In r) (rec_Time_Out r).
Proof.
  intros H.
  destruct (calculate_fields today r H) as (E1 & E2 & Em & Ee & Eu & El).
  unfold get_day_classification, day_label_of_times.
  rewrite E1, E2, Em, Ee, Eu, El.
  destruct (rec_Time_In r) as [a|], (rec_Time_Out r) as [b|];
    unfold morning_window_b, one_hour_window_b, evening_half_b;
    in_constants; us_constants;
    repeat match goal with
           | |- context [(?x <=? ?y)] =>
               destruct (Z.leb_spec x y); cbn [andb negb orb]
           end;
    try reflexivity; lia.
Qed.

(** X4. The day label of a record depends on its two times only, by the
    table [day_label_of_times]: half-day windows first, then an out-time in
    [16:46, 17:44] (also for a late arrival, whose units the label then
    hides), then late units, then a missing time.  A record is labelled
    "On Time" exactly when both times are present, the in-time is at most
    09:15 and the out-time is 17:45 or later or falls in one of the two
    gaps 16:45-16:46 and 17:44-17:45. *)
Theorem day_label_from_times (today : date) (r : AttendanceRecord) :
  valid_record r ->
  get_day_classification (calculate module_globals today r)
  = day_label_of_times (rec_Time_In r) (rec_Time_Out r)
  /\ (get_day_classification (calculate module_globals today r) = "On Time"
      <-> exists a b,
            rec_Time_In r = Some a /\ rec_Time_Out r = Some b
            /\ time_le a (hm 9 15)
            /\ (time_le (hm 17 45) b
                \/ (time_lt (hm 16 45) b /\ time_lt b (hm 16 46))
                \/ (time_lt (hm 17 44) b /\ time_lt b (hm 17 45))))
  /\ (forall a b,
        rec_Time_In r = Some a -> rec_Time_Out r = Some b ->
        ~ in_morning_window a ->
        time_le (hm 16 46) b -> time_le b (hm 17 44) ->
        get_day_classification (calculate module_globals today r)
        = "1 Hour Leave (Early OUT)").
Proof.
  intros H. rewrite (day_label_refines today r H).
  split; [reflexivity|].
  unfold day_label_of_times, in_morning_window, time_le, time_lt.
  destruct H as (Hin & Hout).
  destruct (rec_Time_In r) as [a|], (rec_Time_Out r) as [b|];
    cbn [valid_opt is_none orb] in *;
    unfold morning_window_b, one_hour_window_b, evening_half_b;
    in_constants; us_constants.
  - split.
    + split.
      * intros E. exists a, b. split; [reflexivity|]. split; [reflexivity|].
        revert E.
        repeat match goal with
               | |- context [(?x <=? ?y)] =>
                   destruct (Z.leb_spec x y); cbn [andb negb orb]
               end;
          try discriminate;
          try (destruct (Z.gtb_spec
                           (ceil_div (time_us a - 33300000000)
                              (15 * minute_us)) 0) as [G|G];
               [intros E; now apply late_label_not_on_time in E|]);
          try (pose proof (ceil_div_spec (time_us a - 33300000000)
                             (15 * minute_us) eq_refl) as C;
               unfold minute_us in *);
          intros _; lia.
      * intros (a' & b' & Ea & Eb & Hle & Hout').
        injection Ea as <-. injection Eb as <-.
        repeat match goal with
               | |- context [(?x <=? ?y)] =>
                   destruct (Z.leb_spec x y); cbn [andb negb orb]
               end;
          try reflexivity; lia.
    + intros a' b' Ea Eb Hw H1 H2.
      injection Ea as <-. injection Eb as <-.
      repeat match goal with
             | |- context [(?x <=? ?y)] =>
                 destruct (Z.leb_spec x y); cbn [andb negb orb]
             end;
        try reflexivity; lia.
  - split; [|intros a' b' _ Eb; discriminate].
    split; [|intros (a' & b' & _ & Eb & _); discriminate].
    repeat match goal with
           | |- context [(?x <=? ?y)] =>
               destruct (Z.leb_spec x y); cbn [andb negb orb]
           end;
      try discriminate;
      destruct (_ >? 0); try discriminate;
      intros E; now apply late_label_not_on_time in E.
  - split; [|intros a' b' Ea; discriminate].
    split; [|intros (a' & b' & Ea & _); discriminate].
    repeat match goal with
           | |- context [(?x <=? ?y)] =>
               destruct (Z.leb_spec x y); cbn [andb negb orb]
           end;
      discriminate.
  - split; [|intros a' b' Ea; discriminate].
    split; [|intros (a' & b' & Ea & _); discriminate].
    cbn. discriminate.
Qed.

Lemma day_label_from_times_witness :
  valid_record on_time_with_gap
  /\ get_day_classification (calculate module_globals sample_today
                               on_time_with_gap) = "On Time".
Proof.
  assert (Hv : valid_record on_time_with_gap)
    by (split; cbn; valid_const).
  split; [exact Hv|].
  destruct (day_label_from_times sample_today on_time_with_gap Hv)
    as (_ & Hon & _).
  apply Hon. exists (hm 9 0), (mk_time 17 44 30 0).
  repeat split; try (unfold time_le; cbn; lia).
  right. right. unfold time_lt; cbn; lia.
Defined.

(** * Further properties of the extraction *)

Lemma to_time_safe_returns (pd : string -> outcome pd_scalar) (s : string) :
  exists r, to_time_safe pd s = Return r.
Proof.
  unfold to_time_safe.
  destruct (_ || _); [eauto|].
  destruct (strptime_HM_raises_only_ValueError (strip s)) as [[t E]|E];
    rewrite E; [eauto|].
  destruct (pd (strip s)) as [[|d t]|e]; eauto.
Qed.

Lemma series_apply_returns {A B} (f : A -> outcome B) (l : list A) :
  (forall x, exists y, f x = Return y) ->
  exists ys, series_apply f l = Return ys.
Proof.
  intros H. induction l as [|x l (ys & IH)]; [now exists []|].
  destruct (H x) as (y & E). exists (y :: ys). cbn. now rewrite E, IH.
Qed.

Lemma make_temp_df_returns (pd : string -> outcome pd_scalar) (e : string)
  (dh st it ot : list string) :
  exists temp, make_temp_df pd e dh st it ot = Return temp.
Proof.
  unfold make_temp_df. apply series_apply_returns.
  intros [[[d s] i] o].
  destruct (to_time_safe_returns pd i) as (a & ->).
  destruct (to_time_safe_returns pd o) as (b & ->).
  cbn. eauto.
Qed.

Lemma read_block_outcome (df : RawGrid) (i : nat) :
  (exists x, read_block df i = Return x)
  \/ read_block df i = Raise IndexError.
Proof.
  unfold read_block, iloc_row_from.
  destruct (nth_error df (i + 1)); cbn [bind]; [|now right].
  destruct (nth_error df (i + 2)); cbn [bind]; [|now right].
  destruct (nth_error df (i + 3)); cbn [bind]; [|now right].
  left. eauto.
Qed.

Lemma iloc_cell_outcome (df : RawGrid) (i j : nat) :
  (exists x, iloc_cell df i j = Return x)
  \/ iloc_cell df i j = Raise IndexError.
Proof.
  unfold iloc_cell. destruct (nth_error df i) as [row|]; [|now right].
  destruct (nth_error row j); [left; eauto | now right].
Qed.

Lemma block_loop_outcome (pd : string -> outcome pd_scalar) (df : RawGrid)
  (dh : list string) (emp_rows : list nat) (acc : list (list StructuredRow)) :
  (exists res, block_loop pd df dh emp_rows acc = Return res)
  \/ block_loop pd df dh emp_rows acc = Raise IndexError.
Proof.
  revert acc. induction emp_rows as [|i rest IH]; intros acc;
    [left; now exists acc|].
  cbn [block_loop].
  destruct (iloc_cell_outcome df i 3) as [(cell & ->)| ->]; [|now right].
  cbn [bind]. destruct (String.eqb (strip cell) ""); [apply IH|].
  destruct (read_block_outcome df i) as [([[st it] ot] & ->)| ->];
    [|apply IH].
  destruct (make_temp_df_returns pd cell dh st it ot) as (temp & ->).
  cbn [bind]. destruct temp; apply IH.
Qed.

Lemma mask_index_complete (p : string -> bool) (col : list string)
  (k j : nat) (c : string) :
  nth_error col j = Some c -> p c = true ->
  In (k + j)%nat (mask_index p col k).
Proof.
  revert k j. induction col as [|c0 col IH]; intros k j Hn Hp;
    [now destruct j|].
  cbn [mask_index]. destruct j as [|j]; cbn in Hn.
  - injection Hn as ->. rewrite Hp, Nat.add_0_r. now left.
  - specialize (IH (S k) j Hn Hp).
    replace (k + S j)%nat with (S k + j)%nat by lia.
    destruct (p c0); [right|]; exact IH.
Qed.

Lemma row_tag_col0 (df : RawGrid) (d : nat) :
  nth_error (map strip (map (fun r => nth 0 r EmptyString) df)) d
  = row_tag df d.
Proof.
  unfold row_tag. rewrite map_map, nth_error_map.
  now destruct (nth_error df d).
Qed.

(** X5. [restructure_attendance_data] never lets an exception escape and
    never returns data together with a diagnostic: it either returns a
    frame with nothing reported, or the empty frame with exactly one
    report, for the KeyError of a frame without columns, for the
    ValueError of the header read when no row is tagged "Days", or for an
    IndexError. *)
Theorem restructure_outcomes (pd : string -> outcome pd_scalar)
  (df : RawGrid) :
  (exists out, restructure_attendance_data pd df = (Return out, []))
  \/ (restructure_attendance_data pd df
      = (Return [], [SevereStructuralError KeyError])
      /\ ncols df = O)
  \/ (restructure_attendance_data pd df
      = (Return [], [SevereStructuralError ValueError])
      /\ forall d tag, row_tag df d = Some tag -> contains_Days tag = false)
  \/ restructure_attendance_data pd df
     = (Return [], [SevereStructuralError IndexError]).
Proof.
  unfold restructure_attendance_data, restructure_try, column0.
  destruct (ncols df) eqn:En; [right; left; now split|].
  cbn [bind].
  set (col0 := map strip (map (fun r => nth 0 r EmptyString) df)).
  destruct (mask_index contains_Days col0 0) as [|d ds] eqn:Ed.
  - right. right. left. split; [reflexivity|].
    intros d tag Htag.
    destruct (contains_Days tag) eqn:Ec; [|reflexivity].
    exfalso. rewrite <- row_tag_col0 in Htag. fold col0 in Htag.
    pose proof (mask_index_complete contains_Days col0 0 d tag Htag Ec)
      as Hin.
    now rewrite Ed in Hin.
  - cbn [index_max is_None].
    unfold iloc_row_from.
    destruct (nth_error df _) as [row|]; [|right; right; right; reflexivity].
    cbn [bind].
    destruct (block_loop_outcome pd df
                (map strip (skipn TIME_START_COL_INDEX row))
                (mask_index contains_Employee col0 0) [])
      as [(res & ->)| ->]; [|right; right; right; reflexivity].
    cbn [bind]. left. destruct res; eauto.
Qed.

Lemma zip4_In (A B C D : list string) (a b c d : string) :
  In (a, b, c, d) (zip4 A B C D) ->
  exists k, nth_error A k = Some a /\ nth_error B k = Some b
            /\ nth_error C k = Some c /\ nth_error D k = Some d.
Proof.
  revert B C D. induction A as [|x A IH]; intros B C D H; [contradiction|].
  destruct B as [|y B], C as [|z C], D as [|w D]; try contradiction.
  cbn [zip4] in H. destruct H as [H|H].
  - injection H as -> -> -> ->. now exists O.
  - destruct (IH B C D H) as (k & Hk). now exists (S k).
Qed.

Lemma nth_error_firstn_Some {A} (n : nat) (l : list A) (k : nat) (x : A) :
  nth_error (firstn n l) k = Some x -> nth_error l k = Some x.
Proof.
  rewrite nth_error_firstn. destruct (k <? n)%nat; [auto | discriminate].
Qed.

Lemma nth_error_strip_skipn (row : list string) (k : nat) (x : string) :
  nth_error (map strip (skipn TIME_START_COL_INDEX row)) k = Some x ->
  exists raw, nth_error row (2 + k) = Some raw /\ x = strip raw.
Proof.
  rewrite nth_error_map, nth_error_skipn. unfold TIME_START_COL_INDEX.
  destruct (nth_error row (2 + k)) as [raw|]; [|discriminate].
  cbn. intros H. injection H as <-. now exists raw.
Qed.

Lemma read_block_rows (df : RawGrid) (i : nat) (st it ot : list string) :
  read_block df i = Return (st, it, ot) ->
  exists r1 r2 r3,
    nth_error df (i + 1) = Some r1 /\ nth_error df (i + 2) = Some r2
    /\ nth_error df (i + 3) = Some r3
    /\ st = map strip (skipn TIME_START_COL_INDEX r1)
    /\ it = map strip (skipn TIME_START_COL_INDEX r2)
    /\ ot = map strip (skipn TIME_START_COL_INDEX r3).
Proof.
  unfold read_block, iloc_row_from.
  destruct (nth_error df (i + 1)) as [r1|]; [|discriminate].
  destruct (nth_error df (i + 2)) as [r2|]; [|discriminate].
  destruct (nth_error df (i + 3)) as [r3|]; [|discriminate].
  cbn [bind]. intros H. injection H as <- <- <-.
  exists r1, r2, r3. repeat split.
Qed.

Lemma strip_idempotent_on_stripped (s : string) :
  lstrip (strip s) = strip s -> strip (strip s) = strip s.
Proof.
  intros H. unfold strip at 1. rewrite H. unfold rstrip.
  rewrite strip_no_trailing_space. apply reverse_involutive.
Qed.

Lemma make_temp_df_rows (pd : string -> outcome pd_scalar) (e : string)
  (dh st it ot : list string) (temp : list StructuredRow) :
  make_temp_df pd e dh st it ot = Return temp ->
  forall row, In row temp ->
    exists k,
      nth_error dh k = Some (Date_Day row)
      /\ nth_error st k = Some (Status row)
      /\ nth_error it k = Some (InTime_Raw row)
      /\ nth_error ot k = Some (OutTime_Raw row)
      /\ Employee_Name row = name_of_cell e
      /\ to_time_safe pd (InTime_Raw row) = Return (Time_In row)
      /\ to_time_safe pd (OutTime_Raw row) = Return (Time_Out row).
Proof.
  unfold make_temp_df. intros H row Hrow.
  destruct (series_apply_In _ _ _ H row Hrow) as ([[[d s] i] o] & Hin & E).
  destruct (zip4_In _ _ _ _ _ _ _ _ Hin) as (k & Hd & Hs & Hi & Ho).
  apply nth_error_firstn_Some in Hd, Hs, Hi, Ho.
  destruct (to_time_safe pd i) as [tin|] eqn:Ei; [|discriminate].
  destruct (to_time_safe pd o) as [tout|] eqn:Eo; [|discriminate].
  cbn in E. injection E as <-. cbn.
  exists k. repeat split; assumption.
Qed.

Lemma block_loop_rows (pd : string -> outcome pd_scalar) (df : RawGrid)
  (d : nat) (days_row : list string) (emp_rows : list nat) :
  nth_error df d = Some days_row ->
  (forall i, In i emp_rows -> anchor_row df i) ->
  forall acc res,
    block_loop pd df (map strip (skipn TIME_START_COL_INDEX days_row))
      emp_rows acc = Return res ->
    (forall temp row, In temp acc -> In row temp ->
       exists i j, anchor_row df i /\ (2 <= j)%nat
                   /\ row_from_column pd df d i j row) ->
    forall temp row, In temp res -> In row temp ->
      exists i j, anchor_row df i /\ (2 <= j)%nat
                  /\ row_from_column pd df d i j row.
Proof.
  intros Hd.
  induction emp_rows as [|i rest IH]; intros Hanchor acc res H Hinv.
  - cbn in H. injection H as <-. exact Hinv.
  - assert (Hrest : forall j, In j rest -> anchor_row df j)
      by (intros j Hj; apply Hanchor; now right).
    cbn [block_loop] in H.
    destruct (iloc_cell df i 3) as [cell|e] eqn:Ecell; [|discriminate].
    cbn [bind] in H.
    destruct (String.eqb (strip cell) "") eqn:Eempty;
      [now apply (IH Hrest acc)|].
    destruct (read_block df i) as [[[st it] ot]|[]] eqn:Eblock;
      try discriminate; try (now apply (IH Hrest acc)).
    destruct (make_temp_df pd cell _ st it ot) as [temp_df|e] eqn:Etemp;
      [|discriminate].
    cbn [bind] in H.
    destruct temp_df as [|x l]; [now apply (IH Hrest acc)|].
    apply (IH Hrest _ _ H).
    intros temp row Htemp Hrow. apply in_app_or in Htemp.
    destruct Htemp as [Htemp|[<-|[]]]; [now apply (Hinv temp)|].
    destruct (make_temp_df_rows pd _ _ _ _ _ _ Etemp row Hrow)
      as (k & Hday & Hst & Hit & Hot & Hname & Htin & Htout).
    destruct (read_block_rows df i st it ot Eblock)
      as (r1 & r2 & r3 & E1 & E2 & E3 & -> & -> & ->).
    apply nth_error_strip_skipn in Hday, Hst, Hit, Hot.
    destruct Hday as (day & Hday & Eday), Hst as (s & Hs & Es),
      Hit as (tin & Hi & Ei), Hot as (tout & Ho & Eo).
    exists i, (2 + k)%nat.
    split; [apply Hanchor; now left|]. split; [lia|].
    exists cell, day, s, tin, tout. unfold cell_at.
    rewrite Hd, E1, E2, E3.
    unfold iloc_cell in Ecell.
    destruct (nth_error df i) as [arow|]; [|discriminate].
    destruct (nth_error arow 3) as [c3|]; [|discriminate].
    injection Ecell as ->.
    rewrite <- Ei, <- Eo.
    repeat split; try assumption.
    now apply String.eqb_neq.
Qed.

Lemma fold_max_spec (l : list nat) (a : nat) :
  (a <= fold_left Nat.max l a)%nat
  /\ (forall x, In x l -> (x <= fold_left Nat.max l a)%nat)
  /\ (fold_left Nat.max l a = a \/ In (fold_left Nat.max l a) l).
Proof.
  revert a. induction l as [|x l IH]; intros a; cbn; [intuition lia|].
  destruct (IH (Nat.max a x)) as (H1 & H2 & H3).
  split; [lia|]. split.
  - intros y [<-|Hy]; [lia | now apply H2].
  - destruct H3 as [H3|H3]; [|now right; right].
    rewrite H3. destruct (Nat.max_spec a x) as [[_ ->]|[_ ->]]; auto.
Qed.

Lemma index_max_last (df : RawGrid) (d : nat) :
  index_max (mask_index contains_Days
               (map strip (map (fun r => nth 0 r EmptyString) df)) 0)
  = Int d ->
  last_Days_row df d.
Proof.
  set (col0 := map strip (map (fun r => nth 0 r EmptyString) df)).
  unfold index_max.
  destruct (mask_index contains_Days col0 0) as [|i rest] eqn:E;
    [discriminate|].
  intros H. injection H as <-.
  destruct (fold_max_spec rest i) as (H1 & H2 & H3).
  assert (Hin : In (fold_left Nat.max rest i)
                  (mask_index contains_Days col0 0)).
  { rewrite E. destruct H3 as [->|H3]; [now left | now right]. }
  split.
  - destruct (mask_index_In _ _ _ _ Hin) as (c & _ & Hn & Hp).
    rewrite Nat.sub_0_r in Hn. unfold col0 in Hn.
    rewrite row_tag_col0 in Hn. now exists c.
  - intros d' tag Htag Hc. rewrite <- row_tag_col0 in Htag.
    pose proof (mask_index_complete contains_Days _ 0 d' tag Htag Hc) as Hd'.
    fold col0 in Hd'. rewrite E in Hd'. cbn [Nat.add] in Hd'.
    destruct Hd' as [<-|Hd']; [exact H1 | now apply H2].
Qed.

(** X6. Every record of the returned frame is read off one column [j >= 2]
    of one employee block of the grid, under the last row tagged "Days":
    its name comes from column 3 of the anchor row [i] (not empty after
    trimming), its day label from row [d], its status cell in row [i+1] is
    "P", its two times are [to_time_safe] of the cells in rows [i+2] and
    [i+3], all in that same column; and at least one of the times is
    present. *)
Theorem extraction_reads_aligned_columns (pd : string -> outcome pd_scalar)
  (df : RawGrid) (out : list AttendanceRecord) (r : AttendanceRecord) :
  fst (restructure_attendance_data pd df) = Return out ->
  In r out ->
  exists d i j,
    last_Days_row df d /\ anchor_row df i /\ (2 <= j)%nat
    /\ record_from_column pd df d i j r
    /\ (rec_Time_In r <> None \/ rec_Time_Out r <> None).
Proof.
  unfold restructure_attendance_data.
  destruct (restructure_try pd df) as [res|e] eqn:E; cbn [fst].
  2:{ destruct (is_Exception e); cbn [fst]; intros H;
        [injection H as <-; contradiction | discriminate]. }
  intros H Hr. injection H as ->.
  unfold restructure_try, column0 in E.
  destruct (ncols df); [discriminate|]. cbn [bind] in E.
  destruct (index_max _) as [d| |] eqn:Emax; cbn [is_None] in E;
    try (cbn in E; discriminate);
    [|injection E as <-; contradiction].
  unfold iloc_row_from in E.
  destruct (nth_error df d) as [days_row|] eqn:Ed; [|discriminate].
  cbn [bind] in E.
  destruct (block_loop pd df _ _ []) as [final_data|e] eqn:Eloop;
    [|discriminate].
  cbn [bind] in E.
  destruct final_data as [|t0 ts]; [injection E as <-; contradiction|].
  injection E as <-.
  apply in_map_iff in Hr. destruct Hr as (row & <- & Hrow).
  apply filter_In in Hrow. destruct Hrow as (Hrow & Htime).
  apply filter_In in Hrow. destruct Hrow as (Hrow & Hp).
  change (In row (List.concat (t0 :: ts))) in Hrow.
  apply in_concat in Hrow. destruct Hrow as (temp & Htemp & Hrow).
  destruct (block_loop_rows pd df d days_row _ Ed
              (emp_rows_are_anchors df) [] _ Eloop
              ltac:(intros ? ? []) temp row Htemp Hrow)
    as (i & j & Ha & Hj & name_cell & day & st & tin & tout & H1 & H2 & H3
        & H4 & H5 & H6 & H7 & H8 & H9 & H10 & H11).
  exists d, i, j.
  split; [now apply index_max_last|].
  split; [exact Ha|]. split; [exact Hj|]. split.
  - exists name_cell, day, st, tin, tout. cbn [project rec_Employee_Name
      rec_Date_Day rec_Time_In rec_Time_Out].
    unfold is_present in Hp. apply String.eqb_eq in Hp. rewrite H7 in Hp.
    repeat split; assumption.
  - cbn [project rec_Time_In rec_Time_Out]. unfold has_time in Htime.
    destruct (Time_In row), (Time_Out row);
      try discriminate; (left; discriminate) || (right; discriminate).
Qed.

Lemma extraction_reads_aligned_columns_witness :
  fst (restructure_attendance_data pd_sample sample_grid)
  = Return sample_records
  /\ In (mk_record "Bob" "3 W" (Some (hm 10 20)) (Some (hm 16 0)))
        sample_records
  /\ exists d i j,
       last_Days_row sample_grid d /\ anchor_row sample_grid i
       /\ (2 <= j)%nat.
Proof.
  assert (H1 : fst (restructure_attendance_data pd_sample sample_grid)
               = Return sample_records) by (vm_compute; reflexivity).
  assert (H2 : In (mk_record "Bob" "3 W" (Some (hm 10 20)) (Some (hm 16 0)))
                  sample_records) by (right; left; reflexivity).
  split; [exact H1|]. split; [exact H2|].
  destruct (extraction_reads_aligned_columns pd_sample sample_grid
              sample_records _ H1 H2) as (d & i & j & Hd & Hi & Hj & _).
  exists d, i, j. split; [exact Hd|]. split; [exact Hi | exact Hj].
Defined.

Lemma rectangular_rows (df : RawGrid) (i : nat) (row : list string) :
  rectangular df = true -> nth_error df i = Some row ->
  List.length row = ncols df.
Proof.
  unfold rectangular. rewrite forallb_forall. intros H Hn.
  apply Nat.eqb_eq. apply H. now apply nth_error_In in Hn.
Qed.

Lemma anchor_in_emp_rows (df : RawGrid) (i : nat) :
  anchor_row df i ->
  In i (mask_index contains_Employee
          (map strip (map (fun r => nth 0 r EmptyString) df)) 0).
Proof.
  intros (row & Hrow & Hp).
  apply (mask_index_complete contains_Employee _ 0 i
           (strip (nth 0 row EmptyString))); [|exact Hp].
  rewrite row_tag_col0. unfold row_tag. now rewrite Hrow.
Qed.

Lemma last_Days_row_index_max (df : RawGrid) (d : nat) :
  last_Days_row df d ->
  index_max (mask_index contains_Days
               (map strip (map (fun r => nth 0 r EmptyString) df)) 0)
  = Int d.
Proof.
  intros Hd. pose proof Hd as ((tag & Htag & Hc) & Hmax).
  rewrite <- row_tag_col0 in Htag.
  pose proof (mask_index_complete contains_Days _ 0 d tag Htag Hc) as Hin.
  destruct (index_max _) as [m| |] eqn:E.
  - apply index_max_last in E. destruct E as ((tag' & Htag' & Hc') & Hmax').
    rewrite row_tag_col0 in Htag.
    pose proof (Hmax m tag' Htag' Hc'). pose proof (Hmax' d tag Htag Hc).
    f_equal. lia.
  - unfold index_max in E.
    destruct (mask_index contains_Days _ 0); [contradiction | discriminate].
  - unfold index_max in E.
    destruct (mask_index contains_Days _ 0); discriminate.
Qed.

(** X7. A sheet with a "Days" row, an employee anchor and fewer than four
    columns cannot be parsed at all: the name read at column 3 raises
    outside the inner handler, so the call reports an IndexError and
    returns the empty frame, whatever else the sheet holds. *)
Theorem narrow_sheet_is_a_structural_error
  (pd : string -> outcome pd_scalar) (df : RawGrid) (d i : nat) :
  rectangular df = true -> (1 <= ncols df <= 3)%nat ->
  last_Days_row df d -> anchor_row df i ->
  restructure_attendance_data pd df
  = (Return [], [SevereStructuralError IndexError]).
Proof.
  intros Hrect Hn Hd Hi.
  unfold restructure_attendance_data, restructure_try, column0.
  destruct (ncols df) as [|n] eqn:En; [lia|]. cbn [bind].
  rewrite (last_Days_row_index_max df d Hd). cbn [is_None].
  destruct Hd as ((tag & Htag & _) & _). unfold row_tag in Htag.
  unfold iloc_row_from.
  destruct (nth_error df d) as [days_row|]; [|discriminate].
  cbn [bind].
  pose proof (anchor_in_emp_rows df i Hi) as Hin.
  destruct (mask_index contains_Employee _ 0) as [|i0 rest] eqn:E;
    [contradiction|].
  assert (Hi0 : anchor_row df i0).
  { apply emp_rows_are_anchors. rewrite E. now left. }
  destruct Hi0 as (row0 & Hrow0 & _).
  cbn [block_loop]. unfold iloc_cell. rewrite Hrow0.
  pose proof (rectangular_rows df i0 row0 Hrect Hrow0) as Hlen.
  assert (E3 : nth_error row0 3 = None) by (apply nth_error_None; lia).
  rewrite E3. reflexivity.
Qed.

Lemma narrow_sheet_is_a_structural_error_witness :
  rectangular narrow_grid = true /\ (1 <= ncols narrow_grid <= 3)%nat
  /\ last_Days_row narrow_grid 0 /\ anchor_row narrow_grid 1
  /\ restructure_attendance_data pd_sample narrow_grid
     = (Return [], [SevereStructuralError IndexError]).
Proof.
  assert (Hr : rectangular narrow_grid = true) by reflexivity.
  assert (Hn : (1 <= ncols narrow_grid <= 3)%nat) by (cbn; lia).
  assert (Hd : last_Days_row narrow_grid 0)
    by (apply index_max_last; reflexivity).
  assert (Ha : anchor_row narrow_grid 1)
    by (eexists; split; reflexivity).
  split; [exact Hr|]. split; [exact Hn|]. split; [exact Hd|].
  split; [exact Ha|].
  exact (narrow_sheet_is_a_structural_error pd_sample narrow_grid 0 1
           Hr Hn Hd Ha).
Defined.

Lemma series_apply_complete {A B} (f : A -> outcome B) (l : list A)
  (ys : list B) (x : A) :
  series_apply f l = Return ys -> In x l ->
  exists y, In y ys /\ f x = Return y.
Proof.
  revert ys. induction l as [|x0 l IH]; intros ys H Hx; [contradiction|].
  cbn in H. destruct (f x0) as [b|e] eqn:Ef; [|discriminate].
  cbn in H. destruct (series_apply f l) as [bs|e]; [|discriminate].
  cbn in H. injection H as <-.
  destruct Hx as [<-|Hx].
  - exists b. split; [now left | exact Ef].
  - destruct (IH bs eq_refl Hx) as (y & Hy & E).
    exists y. split; [now right | exact E].
Qed.

Lemma zip4_nth (A B C D : list string) (k : nat) (a b c d : string) :
  nth_error A k = Some a -> nth_error B k = Some b ->
  nth_error C k = Some c -> nth_error D k = Some d ->
  In (a, b, c, d) (zip4 A B C D).
Proof.
  revert A B C D. induction k as [|k IH]; intros A B C D Ha Hb Hc Hd;
    destruct A as [|x A], B as [|y B], C as [|z C], D as [|w D];
    try discriminate; cbn in Ha, Hb, Hc, Hd.
  - injection Ha as ->. injection Hb as ->. injection Hc as ->.
    injection Hd as ->. now left.
  - right. now apply IH.
Qed.

Lemma nth_error_firstn_lt {A} (n : nat) (l : list A) (k : nat) (x : A) :
  (k < n)%nat -> nth_error l k = Some x ->
  nth_error (firstn n l) k = Some x.
Proof.
  intros Hk Hx. rewrite nth_error_firstn.
  apply Nat.ltb_lt in Hk. now rewrite Hk.
Qed.

Lemma nth_error_lt {A} (l : list A) (k : nat) (x : A) :
  nth_error l k = Some x -> (k < List.length l)%nat.
Proof. intros H. apply nth_error_Some. now rewrite H. Qed.

Lemma strip_skipn_nth (row : list string) (j : nat) (raw : string) :
  (2 <= j)%nat -> nth_error row j = Some raw ->
  nth_error (map strip (skipn TIME_START_COL_INDEX row)) (j - 2)
  = Some (strip raw).
Proof.
  intros Hj H. rewrite nth_error_map, nth_error_skipn.
  unfold TIME_START_COL_INDEX.
  replace (2 + (j - 2))%nat with j by lia. now rewrite H.
Qed.

Lemma block_loop_keeps (pd : string -> outcome pd_scalar) (df : RawGrid)
  (dh : list string) (emp_rows : list nat) :
  forall acc res,
    block_loop pd df dh emp_rows acc = Return res ->
    forall temp, In temp acc -> In temp res.
Proof.
  induction emp_rows as [|i rest IH]; intros acc res H temp Htemp.
  - cbn in H. now injection H as <-.
  - cbn [block_loop] in H.
    destruct (iloc_cell df i 3) as [cell|e]; [|discriminate].
    cbn [bind] in H.
    destruct (String.eqb (strip cell) ""); [now apply (IH acc)|].
    destruct (read_block df i) as [[[st it] ot]|[]];
      try discriminate; try (now apply (IH acc)).
    destruct (make_temp_df pd cell dh st it ot) as [temp_df|e];
      [|discriminate].
    cbn [bind] in H.
    destruct temp_df as [|x l]; [now apply (IH acc)|].
    apply (IH _ _ H). apply in_or_app. now left.
Qed.

Lemma block_loop_emits (pd : string -> outcome pd_scalar) (df : RawGrid)
  (dh : list string) (emp_rows : list nat) (i : nat) (cell : string)
  (st it ot : list string) (temp : list StructuredRow) :
  In i emp_rows ->
  iloc_cell df i 3 = Return cell -> strip cell <> "" ->
  read_block df i = Return (st, it, ot) ->
  make_temp_df pd cell dh st it ot = Return temp -> temp <> [] ->
  forall acc res,
    block_loop pd df dh emp_rows acc = Return res -> In temp res.
Proof.
  intros Hin Hcell Hne Hblock Htemp Hnil.
  induction emp_rows as [|i0 rest IH]; intros acc res H; [contradiction|].
  cbn [block_loop] in H.
  destruct Hin as [->|Hin].
  - rewrite Hcell in H. cbn [bind] in H.
    apply String.eqb_neq in Hne. rewrite Hne, Hblock, Htemp in H.
    cbn [bind] in H.
    destruct temp as [|x l]; [now elim Hnil|].
    apply (block_loop_keeps pd df dh rest _ _ H).
    apply in_or_app. right. now left.
  - destruct (iloc_cell df i0 3) as [cell0|e]; [|discriminate].
    cbn [bind] in H.
    destruct (String.eqb (strip cell0) ""); [now apply (IH Hin acc)|].
    destruct (read_block df i0) as [[[st0 it0] ot0]|[]];
      try discriminate; try (now apply (IH Hin acc)).
    destruct (make_temp_df pd cell0 dh st0 it0 ot0) as [temp_df|e];
      [|discriminate].
    cbn [bind] in H.
    destruct temp_df as [|x l]; [now apply (IH Hin acc)|].
    now apply (IH Hin _ _ H).
Qed.

Lemma block_loop_returns_wide (pd : string -> outcome pd_scalar)
  (df : RawGrid) (dh : list string) (emp_rows : list nat) :
  (forall i, In i emp_rows -> exists cell, iloc_cell df i 3 = Return cell) ->
  forall acc, exists res, block_loop pd df dh emp_rows acc = Return res.
Proof.
  induction emp_rows as [|i rest IH]; intros Hcells acc;
    [now exists acc|].
  assert (Hrest : forall j, In j rest ->
                    exists cell, iloc_cell df j 3 = Return cell)
    by (intros j Hj; apply Hcells; now right).
  cbn [block_loop].
  destruct (Hcells i (or_introl eq_refl)) as (cell & ->). cbn [bind].
  destruct (String.eqb (strip cell) ""); [now apply IH|].
  destruct (read_block_outcome df i) as [([[st it] ot] & ->)| ->];
    [|now apply IH].
  destruct (make_temp_df_returns pd cell dh st it ot) as (temp & ->).
  cbn [bind]. destruct temp; now apply IH.
Qed.

Lemma cell_at_row (df : RawGrid) (i j : nat) (x : string) :
  cell_at df i j = Some x ->
  exists row, nth_error df i = Some row /\ nth_error row j = Some x.
Proof.
  unfold cell_at. destruct (nth_error df i) as [row|]; [|discriminate].
  intros H. now exists row.
Qed.

(** X8. On a rectangular sheet with at least four columns nothing is
    lost: for the last "Days" row [d], every anchor row [i] whose name cell
    is not empty and every column [j >= 2] whose status cell (row [i+1]) is
    "P" and whose in or out cell (rows [i+2], [i+3]) parses to a time, the
    call returns without a diagnostic and the frame holds the record with
    the name of the anchor, the day label of row [d] and the two parsed
    times of that column. *)
Theorem extraction_emits_every_present_column
  (pd : string -> outcome pd_scalar) (df : RawGrid) (d i j : nat)
  (name_cell day st tin tout : string) (a b : option time) :
  rectangular df = true -> (4 <= ncols df)%nat ->
  last_Days_row df d -> anchor_row df i -> (2 <= j)%nat ->
  cell_at df i 3 = Some name_cell -> strip name_cell <> "" ->
  cell_at df d j = Some day ->
  cell_at df (i + 1) j = Some st ->
  cell_at df (i + 2) j = Some tin ->
  cell_at df (i + 3) j = Some tout ->
  strip st = "P" ->
  to_time_safe pd (strip tin) = Return a ->
  to_time_safe pd (strip tout) = Return b ->
  a <> None \/ b <> None ->
  exists out,
    restructure_attendance_data pd df = (Return out, [])
    /\ In (mk_record (name_of_cell name_cell) (strip day) a b) out.
Proof.
  intros Hrect Hn Hd Ha Hj Hname Hne Hday Hst Htin Htout Hp Ea Eb Htime.
  unfold restructure_attendance_data, restructure_try, column0.
  destruct (ncols df) as [|n] eqn:En; [lia|]. cbn [bind].
  rewrite (last_Days_row_index_max df d Hd). cbn [is_None].
  destruct (cell_at_row _ _ _ _ Hday) as (days_row & Ed & Hdayc).
  destruct (cell_at_row _ _ _ _ Hst) as (r1 & E1 & Hstc).
  destruct (cell_at_row _ _ _ _ Htin) as (r2 & E2 & Htinc).
  destruct (cell_at_row _ _ _ _ Htout) as (r3 & E3 & Htoutc).
  destruct (cell_at_row _ _ _ _ Hname) as (arow & Ea0 & Hnamec).
  unfold iloc_row_from at 1. rewrite Ed. cbn [bind].
  set (dh := map strip (skipn TIME_START_COL_INDEX days_row)).
  set (emp_rows := mask_index contains_Employee _ 0).
  assert (Hcells : forall i', In i' emp_rows ->
                     exists cell, iloc_cell df i' 3 = Return cell).
  { intros i' Hi'. apply emp_rows_are_anchors in Hi'.
    destruct Hi' as (row & Hrow & _). unfold iloc_cell. rewrite Hrow.
    pose proof (rectangular_rows df i' row Hrect Hrow) as Hlen.
    destruct (nth_error row 3) as [c|] eqn:E; [now exists c|].
    apply nth_error_None in E. lia. }
  destruct (block_loop_returns_wide pd df dh emp_rows Hcells [])
    as (res & Eloop).
  rewrite Eloop. cbn [bind].
  assert (Hcell : iloc_cell df i 3 = Return name_cell)
    by (unfold iloc_cell; now rewrite Ea0, Hnamec).
  assert (Hblock : read_block df i
                   = Return (map strip (skipn TIME_START_COL_INDEX r1),
                             map strip (skipn TIME_START_COL_INDEX r2),
                             map strip (skipn TIME_START_COL_INDEX r3)))
    by (unfold read_block, iloc_row_from; now rewrite E1, E2, E3).
  destruct (make_temp_df_returns pd name_cell dh
              (map strip (skipn TIME_START_COL_INDEX r1))
              (map strip (skipn TIME_START_COL_INDEX r2))
              (map strip (skipn TIME_START_COL_INDEX r3)))
    as (temp & Etemp).
  pose proof (strip_skipn_nth days_row j day Hj Hdayc) as Kd.
  pose proof (strip_skipn_nth r1 j st Hj Hstc) as K1.
  pose proof (strip_skipn_nth r2 j tin Hj Htinc) as K2.
  pose proof (strip_skipn_nth r3 j tout Hj Htoutc) as K3.
  fold dh in Kd.
  assert (Hrow : In (mk_structured name_cell (strip day) (strip st)
                       (strip tin) (strip tout) (name_of_cell name_cell) a b)
                    temp).
  { pose proof Etemp as Etemp'. unfold make_temp_df in Etemp'.
    destruct (series_apply_complete _ _ _
                (strip day, strip st, strip tin, strip tout) Etemp')
      as (row & Hrow & Erow).
    - pose proof (nth_error_lt _ _ _ Kd). pose proof (nth_error_lt _ _ _ K1).
      pose proof (nth_error_lt _ _ _ K2). pose proof (nth_error_lt _ _ _ K3).
      apply (zip4_nth _ _ _ _ (j - 2)); apply nth_error_firstn_lt;
        try assumption; lia.
    - cbn beta iota in Erow. rewrite Ea, Eb in Erow. cbn [bind] in Erow.
      injection Erow as <-. exact Hrow. }
  assert (Hres : In temp res).
  { apply (block_loop_emits pd df dh emp_rows i name_cell _ _ _ temp
             (anchor_in_emp_rows df i Ha) Hcell Hne Hblock Etemp)
      with (acc := []); [|exact Eloop].
    intros ->. contradiction. }
  destruct res as [|t0 ts]; [contradiction|].
  eexists. split; [reflexivity|].
  apply in_map_iff.
  exists (mk_structured name_cell (strip day) (strip st) (strip tin)
            (strip tout) (name_of_cell name_cell) a b).
  split; [reflexivity|].
  apply filter_In. split.
  - apply filter_In. split.
    + apply in_concat. exists temp. split; assumption.
    + unfold is_present. cbn [Status]. rewrite Hp. reflexivity.
  - unfold has_time. cbn [Time_In Time_Out].
    destruct a, b; try reflexivity. destruct Htime as [H|H]; now elim H.
Qed.

Lemma extraction_emits_every_present_column_witness :
  exists out,
    restructure_attendance_data pd_sample sample_grid = (Return out, [])
    /\ In (mk_record "Bob" "1 M" (Some (mk_time 9 15 1 0)) (Some (hm 18 0)))
          out.
Proof.
  assert (Hd : last_Days_row sample_grid 0)
    by (apply index_max_last; reflexivity).
  assert (Ha : anchor_row sample_grid 1)
    by (eexists; split; reflexivity).
  assert (H4 : (4 <= ncols sample_grid)%nat) by (cbn; lia).
  assert (H2 : (2 <= 2)%nat) by lia.
  assert (Hne : strip "Name : Bob" <> "") by (vm_compute; discriminate).
  assert (Ht : Some (mk_time 9 15 1 0) <> None \/ Some (hm 18 0) <> None)
    by (left; discriminate).
  exact (extraction_emits_every_present_column pd_sample sample_grid 0 1 2
           "Name : Bob" "1 M" "P" "09:15:01" "18:00"
           (Some (mk_time 9 15 1 0)) (Some (hm 18 0))
           eq_refl H4 Hd Ha H2 eq_refl Hne eq_refl eq_refl eq_refl eq_refl
           eq_refl eq_refl eq_refl Ht).
Defined.

(** * Further properties of the time parser *)

Lemma string_of_list_ascii_app (l1 l2 : list ascii) :
  string_of_list_ascii (l1 ++ l2)
  = (string_of_list_ascii l1 ++ string_of_list_ascii l2)%string.
Proof. induction l1 as [|c l1 IH]; cbn; [reflexivity | now rewrite IH]. Qed.

Lemma reverse_cons (c : ascii) (s : string) :
  reverse (String c s) = (reverse s ++ String c EmptyString)%string.
Proof. unfold reverse. cbn. now rewrite string_of_list_ascii_app. Qed.

Lemma reverse_snoc (c : ascii) (s : string) :
  reverse (s ++ String c EmptyString) = String c (reverse s).
Proof.
  rewrite <- (reverse_involutive (String c (reverse s))).
  now rewrite reverse_cons, reverse_involutive.
Qed.

Lemma lstrip_snoc_visible (c : ascii) (s : string) :
  isspace c = false ->
  lstrip (s ++ String c EmptyString)
  = (lstrip s ++ String c EmptyString)%string.
Proof.
  intros Hc. induction s as [|c0 s IH]; cbn; [now rewrite Hc|].
  destruct (isspace c0); [exact IH | reflexivity].
Qed.

Lemma rstrip_cons_visible (c : ascii) (s : string) :
  isspace c = false -> rstrip (String c s) = String c (rstrip s).
Proof.
  intros Hc. unfold rstrip.
  now rewrite reverse_cons, lstrip_snoc_visible, reverse_snoc.
Qed.

Lemma lstrip_shape (s : string) :
  lstrip s = EmptyString
  \/ exists c s', lstrip s = String c s' /\ isspace c = false.
Proof.
  induction s as [|c s IH]; cbn; [now left|].
  destruct (isspace c) eqn:E; [exact IH|]. right. now exists c, s.
Qed.

Lemma strip_no_leading_space (s : string) : lstrip (strip s) = strip s.
Proof.
  unfold strip.
  destruct (lstrip_shape s) as [->|(c & s' & -> & Hc)]; [reflexivity|].
  rewrite rstrip_cons_visible by exact Hc. cbn. now rewrite Hc.
Qed.

Lemma strip_idempotent (s : string) : strip (strip s) = strip s.
Proof.
  apply strip_idempotent_on_stripped, strip_no_leading_space.
Qed.

(** X9. [to_time_safe] ignores white space around a cell: a cell and its
    trimmed form give the same answer, so trimming the cells before the
    call, as the extraction does, changes nothing; and a cell made of
    white space only is absent. *)
Theorem to_time_safe_ignores_padding (pd : string -> outcome pd_scalar)
  (s : string) :
  to_time_safe pd (strip s) = to_time_safe pd s
  /\ (all_space s = true -> to_time_safe pd s = Return None).
Proof.
  split.
  - unfold to_time_safe. now rewrite strip_idempotent.
  - intros H. unfold to_time_safe.
    apply strip_empty_iff in H. now rewrite H.
Qed.

Lemma to_time_safe_ignores_padding_witness :
  all_space "   " = true /\ to_time_safe pd_sample "   " = Return None.
Proof.
  split; [reflexivity|].
  apply (to_time_safe_ignores_padding pd_sample "   "). reflexivity.
Defined.

Lemma eqb_two (c : ascii) :
  Ascii.eqb c "2" = (nat_of_ascii c =? 50)%nat.
Proof.
  destruct (Ascii.eqb_spec c "2") as [->|H]; [reflexivity|].
  symmetry. apply Nat.eqb_neq. intros E. apply H.
  rewrite <- (ascii_nat_embedding c), E. reflexivity.
Qed.

Ltac digit_facts :=
  unfold in_range, isdigit, digit_val in *;
  rewrite ?eqb_two in *;
  repeat match goal with
         | H : context [(?a <=? ?b)%nat] |- _ =>
             destruct (Nat.leb_spec a b); cbn [andb orb] in H
         | H : context [(?a =? ?b)%nat] |- _ =>
             destruct (Nat.eqb_spec a b); cbn [andb orb] in H
         | |- context [(?a <=? ?b)%nat] =>
             destruct (Nat.leb_spec a b); cbn [andb orb]
         | |- context [(?a =? ?b)%nat] =>
             destruct (Nat.eqb_spec a b); cbn [andb orb]
         end.

Lemma match_H_shape (s : string) (h : Z) (r : string) :
  In (h, r) (match_H s) ->
  exists f, s = (f ++ r)%string /\ field_value f = Some h.
Proof.
  unfold match_H. intros H. apply in_app_or in H. destruct H as [H|H].
  - destruct s as [|c1 [|c2 s]]; try contradiction.
    apply in_app_or in H. destruct H as [H|H].
    + destruct (Ascii.eqb c1 "2" && in_range c2 48 51) eqn:E;
        [|contradiction].
      destruct H as [H|[]]. injection H as <- <-.
      exists (String c1 (String c2 EmptyString)). split; [reflexivity|].
      cbn [field_value].
      assert (D : isdigit c1 && isdigit c2 = true)
        by (digit_facts; try discriminate; try reflexivity; lia).
      now rewrite D.
    + destruct (in_range c1 48 49 && isdigit c2) eqn:E; [|contradiction].
      destruct H as [H|[]]. injection H as <- <-.
      exists (String c1 (String c2 EmptyString)). split; [reflexivity|].
      cbn [field_value].
      assert (D : isdigit c1 && isdigit c2 = true)
        by (digit_facts; try discriminate; try reflexivity; lia).
      now rewrite D.
  - destruct s as [|c1 s]; [contradiction|].
    destruct (isdigit c1) eqn:E; [|contradiction].
    destruct H as [H|[]]. injection H as <- <-.
    exists (String c1 EmptyString). split; [reflexivity|].
    cbn [field_value]. now rewrite E.
Qed.

Lemma match_M_shape (s : string) (m : Z) (r : string) :
  In (m, r) (match_M s) ->
  exists f, s = (f ++ r)%string /\ field_value f = Some m.
Proof.
  unfold match_M. intros H. apply in_app_or in H. destruct H as [H|H].
  - destruct s as [|c1 [|c2 s]]; try contradiction.
    destruct (in_range c1 48 53 && isdigit c2) eqn:E; [|contradiction].
    destruct H as [H|[]]. injection H as <- <-.
    exists (String c1 (String c2 EmptyString)). split; [reflexivity|].
    cbn [field_value].
    assert (D : isdigit c1 && isdigit c2 = true)
      by (digit_facts; try discriminate; try reflexivity; lia).
    now rewrite D.
  - destruct s as [|c1 s]; [contradiction|].
    destruct (isdigit c1) eqn:E; [|contradiction].
    destruct H as [H|[]]. injection H as <- <-.
    exists (String c1 EmptyString). split; [reflexivity|].
    cbn [field_value]. now rewrite E.
Qed.

Lemma first_match_In (hs : list (Z * string)) (h m : Z) (rest : string) :
  first_match hs = Some (h, m, rest) ->
  exists r, In (h, String ":" r) hs /\ In (m, rest) (match_M r).
Proof.
  induction hs as [|[h0 r0] hs IH]; intros H; [discriminate|].
  cbn [first_match] in H.
  assert (Hnext : first_match hs = Some (h, m, rest) ->
                  exists r, In (h, String ":" r) ((h0, r0) :: hs)
                            /\ In (m, rest) (match_M r)).
  { intros H'. destruct (IH H') as (r & Hr & Hm).
    exists r. split; [now right | exact Hm]. }
  destruct r0 as [|c r]; [now apply Hnext|].
  destruct (Ascii.eqb_spec c ":") as [->|]; [|now apply Hnext].
  destruct (match_M r) as [|[m0 r'] ms] eqn:EM; [now apply Hnext|].
  injection H as <- <- <-.
  exists r. split; [now left|]. rewrite EM. now left.
Qed.

Lemma append_empty_r (s : string) : (s ++ "")%string = s.
Proof. induction s as [|c s IH]; cbn; [reflexivity | now rewrite IH]. Qed.

Lemma field_value_spec (f : string) (v : Z) :
  field_value f = Some v ->
  (exists c1, f = String c1 EmptyString /\ isdigit c1 = true
              /\ v = digit_val c1)
  \/ (exists c1 c2, f = String c1 (String c2 EmptyString)
                    /\ isdigit c1 = true /\ isdigit c2 = true
                    /\ v = 10 * digit_val c1 + digit_val c2).
Proof.
  destruct f as [|c1 [|c2 [|c3 f]]]; cbn [field_value]; try discriminate.
  - destruct (isdigit c1) eqn:E; [|discriminate].
    intros H. injection H as <-. left. now exists c1.
  - destruct (isdigit c1) eqn:E1, (isdigit c2) eqn:E2; try discriminate.
    intros H. injection H as <-. right. now exists c1, c2.
Qed.

Lemma clock_of_spec (h m : string) (t : time) :
  clock_of h m = Some t <->
  exists hv mv, field_value h = Some hv /\ field_value m = Some mv
                /\ hv < 24 /\ mv < 60 /\ t = mk_time hv mv 0 0.
Proof.
  unfold clock_of. split.
  - destruct (field_value h) as [hv|]; [|discriminate].
    destruct (field_value m) as [mv|]; [|discriminate].
    destruct (Z.ltb_spec hv 24) as [Hh|]; [|discriminate].
    destruct (Z.ltb_spec mv 60) as [Hm|]; [|discriminate].
    intros E. injection E as <-. exists hv, mv. repeat split; assumption.
  - intros (hv & mv & -> & -> & Hh & Hm & ->).
    apply Z.ltb_lt in Hh, Hm. now rewrite Hh, Hm.
Qed.

Lemma match_M_field (m : string) (mv : Z) :
  field_value m = Some mv -> mv < 60 ->
  exists rest, match_M m = (mv, EmptyString) :: rest.
Proof.
  intros H Hlt. apply field_value_spec in H.
  destruct H as [(c1 & -> & D1 & ->)|(c1 & c2 & -> & D1 & D2 & ->)].
  - unfold match_M. rewrite D1. now exists [].
  - unfold match_M. rewrite D1, D2.
    assert (R : in_range c1 48 53 = true)
      by (digit_facts; try discriminate; try reflexivity; lia).
    rewrite R. cbn. eauto.
Qed.

Lemma strptime_HM_field (h m : string) (hv mv : Z) :
  field_value h = Some hv -> field_value m = Some mv ->
  hv < 24 -> mv < 60 ->
  strptime_HM (h ++ String ":" m) = Return (mk_time hv mv 0 0).
Proof.
  intros Hh Hm Hlt Hmlt.
  destruct (match_M_field m mv Hm Hmlt) as (rest & EM).
  apply field_value_spec in Hh.
  destruct Hh as [(c1 & -> & D1 & ->)|(c1 & c2 & -> & D1 & D2 & ->)].
  - unfold strptime_HM, match_H. cbn [append]. rewrite D1.
    change (in_range ":" 48 51) with false.
    change (isdigit ":") with false.
    rewrite !andb_false_r. cbn [app first_match].
    change (Ascii.eqb ":" ":") with true. cbn iota. now rewrite EM.
  - unfold strptime_HM, match_H. cbn [append]. rewrite D1, D2.
    destruct (Ascii.eqb c1 "2" && in_range c2 48 51) eqn:E1.
    + cbn [app first_match].
      change (Ascii.eqb ":" ":") with true. cbn iota. now rewrite EM.
    + assert (R : in_range c1 48 49 = true)
        by (digit_facts; try discriminate; try reflexivity; lia).
      rewrite R. cbn [andb app first_match].
      change (Ascii.eqb ":" ":") with true. cbn iota. now rewrite EM.
Qed.

(** X10. The strict parse accepts exactly the cells made of an hour field,
    a colon and a minute field, each of one or two decimal digits, with the
    hour below 24 and the minute below 60 ("9:5" is 09:05); the time has no
    seconds.  Every other cell, such as "24:00", "12:60" or a time with
    seconds, raises ValueError and is left to the permissive parser. *)
Theorem strptime_HM_accepts_exactly (s : string) (t : time) :
  strptime_HM s = Return t
  <-> exists h m, s = (h ++ String ":" m)%string /\ clock_of h m = Some t.
Proof.
  split.
  - unfold strptime_HM.
    destruct (first_match (match_H s)) as [[[hv mv] rest]|] eqn:E;
      [|discriminate].
    destruct rest; [|discriminate].
    intros H. injection H as <-.
    destruct (first_match_bounds _ _ _ _ (match_H_bounds s) E) as (Bh & Bm).
    destruct (first_match_In _ _ _ _ E) as (r & Hh & Hm).
    destruct (match_H_shape _ _ _ Hh) as (fh & -> & Fh).
    destruct (match_M_shape _ _ _ Hm) as (fm & -> & Fm).
    exists fh, fm. rewrite append_empty_r. split; [reflexivity|].
    apply clock_of_spec. exists hv, mv. repeat split; (assumption || lia).
  - intros (h & m & -> & H). apply clock_of_spec in H.
    destruct H as (hv & mv & Fh & Fm & Hh & Hm & ->).
    now apply strptime_HM_field.
Qed.

Lemma strptime_HM_accepts_exactly_witness :
  strptime_HM "9:5" = Return (mk_time 9 5 0 0).
Proof.
  apply (strptime_HM_accepts_exactly "9:5" (mk_time 9 5 0 0)).
  exists "9", "5". split; reflexivity.
Defined.

(** * Further properties of the reports *)

Lemma ascii_compare_lt_trans (a b c : ascii) :
  Ascii.compare a b = Lt -> Ascii.compare b c = Lt -> Ascii.compare a c = Lt.
Proof.
  unfold Ascii.compare. rewrite !N.compare_lt_iff. lia.
Qed.

Lemma str_lt_trans (a b c : string) : str_lt a b -> str_lt b c -> str_lt a c.
Proof.
  unfold str_lt. revert b c.
  induction a as [|x a IH]; intros [|y b] [|z c]; cbn; try discriminate;
    try reflexivity.
  destruct (Ascii.compare x y) eqn:Exy; try discriminate.
  - apply Ascii.compare_eq_iff in Exy. subst y.
    destruct (Ascii.compare x z); try discriminate; [apply IH | reflexivity].
  - intros _. destruct (Ascii.compare y z) eqn:Eyz; try discriminate.
    + apply Ascii.compare_eq_iff in Eyz. subst z. now rewrite Exy.
    + now rewrite (ascii_compare_lt_trans x y z Exy Eyz).
Qed.

Lemma str_lt_irrefl (a : string) : ~ str_lt a a.
Proof.
  unfold str_lt. intros H.
  pose proof (String.compare_antisym a a) as E. rewrite H in E.
  discriminate.
Qed.

Lemma insert_key_ascending (k : string) (ks : list string) :
  ascending ks -> ascending (insert_key k ks).
Proof.
  induction ks as [|k0 ks IH]; intros H; [cbn; tauto|].
  destruct H as (Hhd & Htl). cbn [insert_key].
  destruct (String.compare k k0) eqn:E.
  - now split.
  - split; [|now split].
    intros k' [<-|Hk']; [exact E|].
    apply (str_lt_trans k k0 k' E). now apply Hhd.
  - split; [|now apply IH].
    intros k' Hk'. apply insert_key_In in Hk'.
    destruct Hk' as [->|Hk']; [|now apply Hhd].
    unfold str_lt. rewrite String.compare_antisym, E. reflexivity.
Qed.

Lemma group_keys_ascending (col : list string) : ascending (group_keys col).
Proof.
  induction col as [|k col IH]; [exact I|].
  cbn. now apply insert_key_ascending.
Qed.

Lemma ascending_NoDup (ks : list string) : ascending ks -> NoDup ks.
Proof.
  induction ks as [|k ks IH]; intros H; [constructor|].
  destruct H as (Hhd & Htl). constructor; [|now apply IH].
  intros Hin. exact (str_lt_irrefl k (Hhd k Hin)).
Qed.

Lemma sum_indicator (n : string) (v : Z) (ks : list string) :
  NoDup ks ->
  col_sum (fun k => if String.eqb n k then v else 0) ks
  = if in_dec string_dec n ks then v else 0.
Proof.
  induction ks as [|k ks IH]; intros H; [reflexivity|].
  inversion H as [|? ? Hnin Hnd]; subst.
  rewrite col_sum_cons, (IH Hnd).
  destruct (String.eqb_spec n k) as [->|Hne].
  - destruct (in_dec string_dec k ks) as [Hin|_]; [contradiction|].
    destruct (in_dec string_dec k (k :: ks)) as [_|Hn];
      [lia | elim Hn; now left].
  - destruct (in_dec string_dec n ks) as [Hin|Hnin'];
      destruct (in_dec string_dec n (k :: ks)) as [Hin'|Hnin''];
      try lia.
    + elim Hnin''. now right.
    + destruct Hin' as [->|Hin']; [now elim Hne | contradiction].
Qed.

Lemma col_sum_zero {A} (l : list A) : col_sum (fun _ => 0) l = 0.
Proof.
  induction l as [|x l IH]; [reflexivity|]. now rewrite col_sum_cons, IH.
Qed.

Lemma col_sum_groups {A} (name : A -> string) (f : A -> Z)
  (ks : list string) (l : list A) :
  NoDup ks -> (forall r, In r l -> In (name r) ks) ->
  col_sum (fun k => col_sum f (filter (fun r => String.eqb (name r) k) l)) ks
  = col_sum f l.
Proof.
  intros Hnd. induction l as [|x l IH]; intros Hin.
  - cbn [filter]. apply (col_sum_zero ks).
  - rewrite col_sum_cons, <- IH by (intros r Hr; apply Hin; now right).
    assert (E : col_sum (fun k => if String.eqb (name x) k then f x else 0)
                  ks = f x).
    { rewrite (sum_indicator (name x) (f x) ks Hnd).
      destruct (in_dec string_dec (name x) ks) as [_|Hn];
        [reflexivity | elim Hn; apply Hin; now left]. }
    rewrite <- E at 1.
    rewrite col_sum_add. apply col_sum_ext. intros k _.
    cbn [filter]. destruct (String.eqb (name x) k);
      [now rewrite col_sum_cons | lia].
Qed.

Lemma consolidated_report_inv (G : globals) (today : date)
  (df : list AttendanceRecord) (summary : list SummaryRow)
  (calculated : list ConsolidatedRow) :
  generate_consolidated_report G today df = Consolidated summary calculated ->
  calculated = map add_flags (map (calculate G today) df)
  /\ summary
     = map (fun k =>
              mk_summary k
                (col_sum (fun r => late_units (calc r))
                   (group_of k calculated))
                (col_sum is_half_day (group_of k calculated))
                (col_sum is_one_hour_leave (group_of k calculated)))
         (group_keys (map (fun r => c_Employee_Name (calc r)) calculated)).
Proof.
  unfold generate_consolidated_report.
  destruct df as [|r0 df0]; [discriminate|].
  intros H. injection H as <- <-. split; reflexivity.
Qed.

(** X11. The consolidated table has one row per employee of the data, in
    strictly ascending order of name, and splits the totals without loss:
    the three columns add up to the late units, half-day flags and
    one-hour flags of all records. *)
Theorem consolidated_summary_partitions (G : globals) (today : date)
  (df : list AttendanceRecord) (summary : list SummaryRow)
  (calculated : list ConsolidatedRow) :
  generate_consolidated_report G today df = Consolidated summary calculated ->
  ascending (map s_Employee_Name summary)
  /\ (forall e, In e (map s_Employee_Name summary)
                <-> exists r, In r df /\ rec_Employee_Name r = e)
  /\ calculated = map add_flags (map (calculate G today) df)
  /\ col_sum s_15_Min_Late_Units summary
     = col_sum (fun r => late_units (calc r)) calculated
  /\ col_sum s_Half_Day_Incidents summary = col_sum is_half_day calculated
  /\ col_sum s_1_Hour_Leaves summary = col_sum is_one_hour_leave calculated.
Proof.
  intros H. destruct (consolidated_report_inv G today df _ _ H) as (Ec & Es).
  set (keys := group_keys
                 (map (fun r => c_Employee_Name (calc r)) calculated)) in *.
  assert (Hnames : map s_Employee_Name summary = keys).
  { rewrite Es, map_map. cbn [s_Employee_Name]. apply map_id. }
  assert (Hnd : NoDup keys)
    by (apply ascending_NoDup, group_keys_ascending).
  assert (Hcover : forall r, In r calculated ->
                     In (c_Employee_Name (calc r)) keys).
  { intros r Hr. apply group_keys_In.
    exact (in_map (fun r => c_Employee_Name (calc r)) calculated r Hr). }
  split; [rewrite Hnames; apply group_keys_ascending|].
  split.
  { intros e. rewrite Hnames. unfold keys. rewrite group_keys_In.
    rewrite Ec, !map_map, in_map_iff. cbn [calc add_flags].
    split; intros (r & Hr1 & Hr2).
    - exists r. split; [exact Hr2|].
      now destruct (calculate_flags G today r) as (_ & _ & _ & <-).
    - exists r. split; [|exact Hr1].
      now destruct (calculate_flags G today r) as (_ & _ & _ & ->). }
  split; [exact Ec|].
  rewrite Es, !col_sum_map.
  cbn [s_15_Min_Late_Units s_Half_Day_Incidents s_1_Hour_Leaves].
  unfold group_of.
  repeat split;
    apply (col_sum_groups (fun r => c_Employee_Name (calc r))); assumption.
Qed.

Lemma consolidated_summary_partitions_witness :
  exists summary calculated,
    generate_consolidated_report module_globals sample_today sample_records
    = Consolidated summary calculated
    /\ ascending (map s_Employee_Name summary)
    /\ col_sum s_15_Min_Late_Units summary
       = col_sum (fun r => late_units (calc r)) calculated.
Proof.
  destruct (generate_consolidated_report module_globals sample_today
              sample_records) as [|summary calculated] eqn:E;
    [vm_compute in E; discriminate|].
  exists summary, calculated. split; [reflexivity|].
  destruct (consolidated_summary_partitions module_globals sample_today
              sample_records summary calculated E) as (H1 & _ & _ & H2 & _).
  split; assumption.
Defined.

Lemma half_day_sum_split (c : CalculatedRow) :
  (is_morning_half_day c = 0 \/ is_morning_half_day c = 1) ->
  (is_evening_half_day c = 0 \/ is_evening_half_day c = 1) ->
  half_day_sum c
  = is_half_day (add_flags c) + (if both_flags c then 1 else 0).
Proof.
  unfold half_day_sum, add_flags, both_flags. cbn [is_half_day].
  intros [->| ->] [->| ->]; reflexivity.
Qed.

Lemma one_hour_split (c : CalculatedRow) :
  one_hour_any c
  = is_one_hour_leave (add_flags c)
    + (if half_day_with_hour c then 1 else 0).
Proof.
  unfold one_hour_any, add_flags, half_day_with_hour.
  cbn [is_one_hour_leave is_half_day].
  destruct ((is_morning_half_day c =? 1) || (is_evening_half_day c =? 1)),
    (early_out_units c =? 1); reflexivity.
Qed.

Lemma count_true_nonneg {A} (p : A -> bool) (l : list A) :
  0 <= count_true p l.
Proof.
  unfold count_true. induction l as [|x l IH]; [cbn; lia|].
  rewrite col_sum_cons. destruct (p x); lia.
Qed.

(** X12. The two reports agree on late units and differ by the overlaps
    only: for an employee, the per-employee half-day total is the
    consolidated one plus the number of records with both half-day flags,
    and the per-employee one-hour total is the consolidated one plus the
    number of half-day records that also have an early-out unit; so the
    consolidated counts are never the larger ones. *)
Theorem report_modes_differ_by_overlaps (G : globals) (today : date)
  (df : list AttendanceRecord) (e n1 n2 n3 : string) (L H O : Z)
  (details : list DetailRow) (summary : list SummaryRow)
  (calculated : list ConsolidatedRow) (s : SummaryRow) :
  generate_employee_report G today df e
  = Report [(n1, L); (n2, H); (n3, O)] details ->
  generate_consolidated_report G today df = Consolidated summary calculated ->
  In s summary -> s_Employee_Name s = e ->
  s_15_Min_Late_Units s = L
  /\ H = s_Half_Day_Incidents s
         + count_true both_flags (employee_rows G today df e)
  /\ O = s_1_Hour_Leaves s
         + count_true half_day_with_hour (employee_rows G today df e)
  /\ s_Half_Day_Incidents s <= H /\ s_1_Hour_Leaves s <= O.
Proof.
  intros Hemp Hcons Hs He.
  assert (Hsum :
    s_15_Min_Late_Units s = L
    /\ H = s_Half_Day_Incidents s
           + count_true both_flags (employee_rows G today df e)
    /\ O = s_1_Hour_Leaves s
           + count_true half_day_with_hour (employee_rows G today df e)).
  { unfold generate_employee_report in Hemp.
    fold (employee_rows G today df e) in Hemp.
    unfold employee_rows in Hemp.
    destruct (filter _ df) as [|r l] eqn:Ef; [discriminate|].
    rewrite <- Ef in Hemp. fold (employee_rows G today df e) in Hemp.
    injection Hemp as _ HL _ HH _ HO _.
    destruct (consolidated_report_inv G today df _ _ Hcons) as (Ec & Es).
    rewrite Es in Hs.
    apply in_map_iff in Hs. destruct Hs as (k & <- & _).
    cbn [s_Employee_Name] in He. subst k.
    cbn [s_15_Min_Late_Units s_Half_Day_Incidents s_1_Hour_Leaves].
    rewrite Ec, group_rows, !col_sum_map. cbn [calc add_flags].
    split; [exact HL|]. split.
    - rewrite <- HH. unfold count_true.
      rewrite (col_sum_add (fun r => is_half_day (add_flags r))), col_sum_add.
      apply col_sum_ext. intros c Hc.
      destruct (employee_rows_flags G today df e c Hc) as (Hm & Hev).
      exact (half_day_sum_split c Hm Hev).
    - rewrite <- HO. unfold count_true.
      rewrite (col_sum_add (fun r => is_one_hour_leave (add_flags r))).
      apply col_sum_ext. intros c _. exact (one_hour_split c). }
  destruct Hsum as (H1 & H2 & H3).
  pose proof (count_true_nonneg both_flags (employee_rows G today df e)).
  pose proof (count_true_nonneg half_day_with_hour
                (employee_rows G today df e)).
  repeat split; (assumption || lia).
Qed.

Lemma report_modes_differ_by_overlaps_witness :
  3 = 2 + count_true both_flags
            (employee_rows module_globals sample_today
               [both_halves; half_and_hour] "Bob").
Proof.
  assert (E1 : exists details,
             generate_employee_report module_globals sample_today
               [both_halves; half_and_hour] "Bob"
             = Report [ ("Total 15 Min Late Units", 0);
                        ("Total Half Day Incidents", 3);
                        ("Total 1 Hour Leaves", 1) ] details)
    by (eexists; vm_compute; reflexivity).
  assert (E2 : exists calculated,
             generate_consolidated_report module_globals sample_today
               [both_halves; half_and_hour]
             = Consolidated [mk_summary "Bob" 0 2 0] calculated)
    by (eexists; vm_compute; reflexivity).
  destruct E1 as (details & E1), E2 as (calculated & E2).
  destruct (report_modes_differ_by_overlaps module_globals sample_today
              [both_halves; half_and_hour] "Bob" _ _ _ 0 3 1 details
              [mk_summary "Bob" 0 2 0] calculated (mk_summary "Bob" 0 2 0)
              E1 E2 (or_introl eq_refl) eq_refl) as (_ & H & _).
  exact H.
Defined.

Lemma filter_nil_iff {A} (p : A -> bool) (l : list A) :
  filter p l = [] <-> forall x, In x l -> p x = false.
Proof.
  induction l as [|x l IH]; cbn; [tauto|].
  destruct (p x) eqn:E.
  - split; [discriminate|]. intros H. rewrite (H x) in E by now left.
    discriminate.
  - rewrite IH. split.
    + intros H y [<-|Hy]; [exact E | now apply H].
    + intros H y Hy. apply H. now right.
Qed.

(** X14. The per-employee run never meets the "No data" answer: it asks
    for exactly the names that occur in the parsed frame, each once and in
    ascending order, and every answer is a report with at least one detail
    row. *)
Theorem app_reports_every_employee_once
  (pd : string -> outcome pd_scalar) (G : globals) (today : date)
  (df_raw : RawGrid) :
  ascending (map fst (app_employee_reports pd G today df_raw))
  /\ (forall out, fst (restructure_attendance_data pd df_raw) = Return out ->
      forall e, In e (map fst (app_employee_reports pd G today df_raw))
                <-> exists r, In r out /\ rec_Employee_Name r = e)
  /\ (forall e rep,
        In (e, rep) (app_employee_reports pd G today df_raw) ->
        exists summary d details, rep = Report summary (d :: details)).
Proof.
  unfold app_employee_reports.
  destruct (fst (restructure_attendance_data pd df_raw))
    as [[|r0 df0]|ex] eqn:E.
  - split; [exact I|]. split; [|intros e rep []].
    intros out H e. injection H as <-. cbn. split; [tauto|].
    intros (r & [] & _).
  - set (df := r0 :: df0).
    assert (Hnames : map fst
                       (map (fun employee =>
                               (employee,
                                generate_employee_report G today df employee))
                          (group_keys (map rec_Employee_Name df)))
                     = group_keys (map rec_Employee_Name df)).
    { rewrite map_map. cbn [fst]. apply map_id. }
    split; [rewrite Hnames; apply group_keys_ascending|]. split.
    + intros out H e. injection H as <-. fold df.
      rewrite Hnames, group_keys_In, in_map_iff.
      split; intros (r & H1 & H2); exists r; tauto.
    + intros e rep Hin. apply in_map_iff in Hin.
      destruct Hin as (k & Hk & Hkeys). injection Hk as <- <-.
      apply group_keys_In, in_map_iff in Hkeys.
      destruct Hkeys as (r & Hr & Hin).
      unfold generate_employee_report.
      destruct (filter (fun r => String.eqb (rec_Employee_Name r) k) df)
        as [|r1 l] eqn:Ef.
      * pose proof (proj1 (filter_nil_iff _ _) Ef r Hin) as F. cbn in F.
        apply String.eqb_neq in F. contradiction.
      * cbn [map]. eauto.
  - split; [exact I|]. split; [discriminate | intros e rep []].
Qed.

Lemma app_reports_every_employee_once_witness :
  exists rep,
    In ("Bob", rep)
       (app_employee_reports pd_sample module_globals sample_today
          sample_grid)
    /\ exists summary d details, rep = Report summary (d :: details).
Proof.
  assert (H : exists rep,
             In ("Bob", rep)
                (app_employee_reports pd_sample module_globals sample_today
                   sample_grid))
    by (vm_compute; eexists; right; left; reflexivity).
  destruct H as (rep & H). exists rep. split; [exact H|].
  destruct (app_reports_every_employee_once pd_sample module_globals
              sample_today sample_grid) as (_ & _ & Hrep).
  exact (Hrep "Bob" rep H).
Defined.

(** * The parse stage on two runs *)


Lemma is_blank_literal_strip (cell : string) :
  is_blank_literal (strip cell) <-> is_blank_literal cell.
Proof. unfold is_blank_literal. now rewrite strip_idempotent. Qed.









